(** * deploy.py: token, upload, publish

    A shallow embedding of the Chrome Web Store deployment script
    [deploy.py] and the properties of its three steps.

    The script talks to three things outside itself: the process
    environment ([os.environ]), the local file system ([open]) and the
    network ([requests.post], [requests.put]).  They are gathered in a
    [world]; the script is a computation in a state-and-exception monad
    whose state records the calls made so far and the file descriptors
    that are open. *)

From stdpp Require Import base gmap strings list fin_maps.
From Stdlib Require Import ZArith.

#[local] Set Warnings "-register-all,-clear-no-such-hyp".
#[local] Open Scope Z_scope.

(** ** Python values decoded from JSON

    What [r.json()] returns: [None], [bool], [int], [str], [list] and
    [dict] with [str] keys.  Numbers are the integer literals of JSON. *)

Inductive json : Type :=
  | JNull
  | JBool (b : bool)
  | JInt (n : Z)
  | JStr (s : string)
  | JArr (items : list json)
  | JObj (fields : gmap string json).

(** [bool(v)], the test behind [if not token] and [if errors]. *)
Definition truthy (v : json) : bool :=
  match v with
  | JNull => false
  | JBool b => b
  | JInt n => negb (n =? 0)
  | JStr s => negb (String.eqb s EmptyString)
  | JArr items => match items with [] => false | _ :: _ => true end
  | JObj fields => negb (bool_decide (fields = ∅))
  end.

(** [v == s] for a [str] literal [s]: only an equal [str] is equal. *)
Definition eq_str (v : json) (s : string) : bool :=
  match v with
  | JStr t => String.eqb t s
  | _ => false
  end.

(** The hashable values, as the keys a [set] holds.  Python hashes and
    compares [True] as [1] and [False] as [0]. *)
Inductive key : Type :=
  | KNone
  | KNum (n : Z)
  | KStr (s : string).

#[global] Instance key_eq_dec : EqDecision key.
Proof. solve_decision. Defined.

#[global] Instance key_countable : Countable key.
Proof.
  refine (inj_countable'
    (λ k, match k with
          | KNone => inl ()
          | KNum n => inr (inl n)
          | KStr s => inr (inr s)
          end)
    (λ x, match x with
          | inl _ => KNone
          | inr (inl n) => KNum n
          | inr (inr s) => KStr s
          end) _).
  by intros [].
Defined.

(** [hash(v)]: lists and dicts are unhashable. *)
Definition hash_key (v : json) : option key :=
  match v with
  | JNull => Some KNone
  | JBool b => Some (KNum (if b then 1 else 0))
  | JInt n => Some (KNum n)
  | JStr s => Some (KStr s)
  | JArr _ | JObj _ => None
  end.

Fixpoint set_of_items (items : list json) : option (gset key) :=
  match items with
  | [] => Some ∅
  | v :: rest =>
      match hash_key v, set_of_items rest with
      | Some k, Some s => Some ({[ k ]} ∪ s)
      | _, _ => None
      end
  end.

Fixpoint chars (s : string) : list string :=
  match s with
  | EmptyString => []
  | String c rest => String c EmptyString :: chars rest
  end.

(** [set(v)]: the elements of a list, the characters of a str, the keys
    of a dict; [None] stands for the [TypeError] of a value that is not
    iterable or of an element that is not hashable. *)
Definition set_of (v : json) : option (gset key) :=
  match v with
  | JArr items => set_of_items items
  | JStr s => Some (list_to_set (KStr <$> chars s))
  | JObj fields => Some (list_to_set (KStr <$> elements (dom fields)))
  | JNull | JBool _ | JInt _ => None
  end.

(** ** Requests and responses *)

Inductive http_method : Type := POST | PUT.

(** An open file object. *)
Record file : Type := MkFile {
  fileno : nat;
  name : string;
  mode : string;
  contents : string;
}.

Inductive payload : Type :=
  | NoData
  | FormData (form : gmap string string)
  | FileData (f : file).

Record request : Type := MkRequest {
  method : http_method;
  url : string;
  params : gmap string string;
  headers : gmap string string;
  data : payload;
}.

(** [status_code] and [text] are the attributes of the same names;
    [json_body] is what [json()] decodes, [None] when the body is not
    JSON. *)
Record response : Type := MkResponse {
  status_code : Z;
  text : string;
  json_body : option json;
}.

(** What [requests] raises when no response arrives. *)
Inductive transport_error : Type :=
  | ConnectionError
  | Timeout
  | TooManyRedirects.

Inductive exn : Type :=
  | KeyError (k : string)
  | OSError (path : string)
  | RequestException (e : transport_error)
  | HTTPError (r : response)
  | JSONDecodeError
  | AttributeError (attr : string)
  | TypeError
  | RuntimeError (msg : string).

(** ** The world and the state of a run *)

Inductive event : Type :=
  | EvRequest (req : request)
  | EvJson (r : response)
  | EvOpen (path : string) (mode : string) (fd : nat)
  | EvClose (fd : nat).

Record world : Type := MkWorld {
  environ : gmap string string;
  files : gmap string string;
  network : list event → request → transport_error + response;
}.

Record state : Type := MkState {
  trace : list event;
  next_fd : nat;
  open_fds : gset nat;
}.

Inductive result (A : Type) : Type :=
  | Return (a : A)
  | Raise (e : exn).

Arguments Return {A} a.
Arguments Raise {A} e.

Definition M (A : Type) : Type := state → result A * state.

Definition ret {A} (a : A) : M A := λ st, (Return a, st).

Definition raise {A} (e : exn) : M A := λ st, (Raise e, st).

Definition bind {A B} (m : M A) (k : A → M B) : M B :=
  λ st, match m st with
        | (Return a, st') => k a st'
        | (Raise e, st') => (Raise e, st')
        end.

Declare Scope py_scope.
Delimit Scope py_scope with py.
Notation "'let*' x := m 'in' k" := (bind m (λ x, k))
  (at level 10, x name, m at level 200, k at level 200) : py_scope.

#[local] Open Scope py_scope.

(** The state after the events [evs] were recorded. *)
Definition emit (st : state) (evs : list event) : state :=
  {| trace := trace st ++ evs;
     next_fd := next_fd st;
     open_fds := open_fds st |}.

Definition log (e : event) : M unit :=
  λ st, (Return tt, emit st [e]).

(** [d.get(k, dflt)]; a value that is not a dict has no [get]. *)
Definition dict_get (d : json) (k : string) (dflt : json) : M json :=
  match d with
  | JObj fields => ret (default dflt (fields !! k))
  | _ => raise (AttributeError "get")
  end.

(** [r.json()]. *)
Definition response_json (r : response) : M json :=
  let* _ := log (EvJson r) in
  match json_body r with
  | Some j => ret j
  | None => raise JSONDecodeError
  end.

(** [r.raise_for_status()] of the requests library: a 4xx status is a
    client error, a 5xx status a server error, every other status
    passes. *)
Definition raise_for_status (r : response) : M unit :=
  if (400 <=? status_code r) && (status_code r <? 600)
  then raise (HTTPError r)
  else ret tt.

(** [f.close()]. *)
Definition close (f : file) : M unit :=
  λ st, (Return tt,
         {| trace := trace st ++ [EvClose (fileno f)];
            next_fd := next_fd st;
            open_fds := open_fds st ∖ {[ fileno f ]} |}).

(** [with m as f: body]: [close] runs when the body returns and when it
    raises, and the exception of the body is raised again. *)
Definition with_file {A} (m : M file) (body : file → M A) : M A :=
  λ st, match m st with
        | (Return f, st1) =>
            let (res, st2) := body f st1 in (res, snd (close f st2))
        | (Raise e, st1) => (Raise e, st1)
        end.

Section Script.

(** [str(v)], which ['%s' % v] inserts; on a [str] it is the
    identity. *)
Variable str : json → string.

Variable w : world.

(** [os.environ[k]]. *)
Definition environ_get (k : string) : M string :=
  match environ w !! k with
  | Some v => ret v
  | None => raise (KeyError k)
  end.

(** [open(path, mode)] of an existing file, for reading. *)
Definition open_file (path mode : string) : M file :=
  λ st, match files w !! path with
        | Some bytes =>
            (Return (MkFile (next_fd st) path mode bytes),
             {| trace := trace st ++ [EvOpen path mode (next_fd st)];
                next_fd := S (next_fd st);
                open_fds := {[ next_fd st ]} ∪ open_fds st |})
        | None => (Raise (OSError path), st)
        end.

(** [requests.request]: the call is made, and the network answers
    with a response or not at all. *)
Definition send (req : request) : M response :=
  λ st, let st' := emit st [EvRequest req] in
        match network w (trace st) req with
        | inr r => (Return r, st')
        | inl e => (Raise (RequestException e), st')
        end.

Definition requests_post (u : string) (ps hs : gmap string string)
    (d : payload) : M response :=
  send (MkRequest POST u ps hs d).

Definition requests_put (u : string) (hs : gmap string string)
    (d : payload) : M response :=
  send (MkRequest PUT u ∅ hs d).

Definition defaultHeaders (token : json) : gmap string string :=
  <[ "Authorization" := "Bearer " +:+ str token ]>
    (<[ "x-goog-api-version" := "2" ]> ∅).

Definition getToken : M json :=
  let* client_id := environ_get "WEBSTORE_CLIENT_ID" in
  let* client_secret := environ_get "WEBSTORE_CLIENT_SECRET" in
  let* refresh_token := environ_get "WEBSTORE_REFRESH_TOKEN" in
  let* r := requests_post "https://accounts.google.com/o/oauth2/token" ∅ ∅
         (FormData
            (<[ "client_id" := client_id ]>
            (<[ "client_secret" := client_secret ]>
            (<[ "refresh_token" := refresh_token ]>
            (<[ "grant_type" := "refresh_token" ]>
            (<[ "redirect_uri" := "urn:ietf:wg:oauth:2.0:oob" ]> ∅)))))) in
  let* j := response_json r in
  let* token := dict_get j "access_token" JNull in
  if negb (truthy token)
  then raise (RuntimeError ("Failed to get access token: " +:+ text r))
  else ret token.

Definition upload (token : json) (extension_id file_path : string)
    : M unit :=
  let u := "https://www.googleapis.com/upload/chromewebstore/v1.1/items/"
           +:+ extension_id in
  let hs := defaultHeaders token in
  with_file (open_file file_path "rb") (λ f,
    let* r := requests_put u hs (FileData f) in
    let* _ := raise_for_status r in
    let* j := response_json r in
    let* v := dict_get j "uploadState" JNull in
    if negb (eq_str v "SUCCESS")
    then raise (RuntimeError ("Upload failed: " +:+ text r))
    else ret tt).

Definition publish (token : json) (extension_id publish_target : string)
    : M unit :=
  let u := "https://www.googleapis.com/chromewebstore/v1.1/items/"
           +:+ extension_id +:+ "/publish" in
  let ps : gmap string string := {[ "uploadType" := "media" ]} in
  let hs := <[ "publishTarget" := publish_target ]> (defaultHeaders token) in
  let* r := requests_post u ps hs NoData in
  let* _ := raise_for_status r in
  let* j := response_json r in
  let* v := dict_get j "status" (JArr []) in
  match set_of v with
  | None => raise TypeError
  | Some statuses =>
      let errors := statuses ∖ {[ KStr "OK" ]} in
      if negb (bool_decide (errors = ∅))
      then raise (RuntimeError ("Publish failed: " +:+ text r))
      else ret tt
  end.

Definition main : M unit :=
  let* extension_id := environ_get "EXTENSION_ID" in
  let* file_path := environ_get "FILE_NAME" in
  let* publish_target := environ_get "PUBLISH_TARGET" in
  let* token := getToken in
  let* _ := upload token extension_id file_path in
  publish token extension_id publish_target.

(** [if __name__ == "__main__": main()]: the interpreter exits with 0
    when [main] returns and with 1 on an uncaught exception. *)
Definition script (st : state) : Z * state :=
  match main st with
  | (Return _, st') => (0, st')
  | (Raise _, st') => (1, st')
  end.

End Script.

(** ** Vocabulary of the specification *)

(** The three endpoints, told apart by method and URL as in the
    interface table of the specification. *)
Inductive endpoint : Type := Token | Upload | Publish.

Definition endpoint_of (req : request) : option endpoint :=
  match method req with
  | POST =>
      if String.eqb (url req) "https://accounts.google.com/o/oauth2/token"
      then Some Token
      else if String.prefix
                "https://www.googleapis.com/chromewebstore/v1.1/items/"
                (url req)
      then Some Publish
      else None
  | PUT =>
      if String.prefix
           "https://www.googleapis.com/upload/chromewebstore/v1.1/items/"
           (url req)
      then Some Upload
      else None
  end.

(** The network calls of a trace, in the order they were made. *)
Fixpoint network_calls (evs : list event) : list request :=
  match evs with
  | [] => []
  | EvRequest req :: rest => req :: network_calls rest
  | _ :: rest => network_calls rest
  end.

Definition calls (evs : list event) : list (option endpoint) :=
  endpoint_of <$> network_calls evs.

(** The response bodies that were decoded. *)
Fixpoint decoded (evs : list event) : list response :=
  match evs with
  | [] => []
  | EvJson r :: rest => r :: decoded rest
  | _ :: rest => decoded rest
  end.

Definition is_2xx (code : Z) : bool := (200 <=? code) && (code <? 300).

(** Opening and closing of files, among the events. *)
Definition file_event (e : event) : bool :=
  match e with
  | EvOpen _ _ _ | EvClose _ => true
  | EvRequest _ | EvJson _ => false
  end.

(** [sub] occurs in [s]. *)
Definition contains (s sub : string) : Prop :=
  ∃ before after, s = before +:+ sub +:+ after.

(** The errors of the specification's taxonomy, as the script raises
    them. *)
Definition EnvironmentLookupError (k : string) : exn := KeyError k.

Definition AuthenticationError (body : string) : exn :=
  RuntimeError ("Failed to get access token: " +:+ body).

Definition UploadError (body : string) : exn :=
  RuntimeError ("Upload failed: " +:+ body).

Definition PublishError (body : string) : exn :=
  RuntimeError ("Publish failed: " +:+ body).

(** The variables [getToken] reads, those [main] reads, and all six. *)
Definition credential_variables : list string :=
  [ "WEBSTORE_CLIENT_ID"; "WEBSTORE_CLIENT_SECRET"; "WEBSTORE_REFRESH_TOKEN" ].

Definition target_variables : list string :=
  [ "EXTENSION_ID"; "FILE_NAME"; "PUBLISH_TARGET" ].

Definition required_variables : list string :=
  credential_variables ++ target_variables.

Definition defined_in (env : gmap string string) (ks : list string) : Prop :=
  Forall (λ k, is_Some (env !! k)) ks.

(** The endpoint [ep] answers [r] whenever it is called. *)
Definition answers (w : world) (ep : endpoint) (r : response) : Prop :=
  ∀ tr req, endpoint_of req = Some ep → network w tr req = inr r.

(** Two runs of [getToken], answered [r] and [r'], end alike: with the
    same token, or each with the authentication error of its body. *)
Definition same_token_outcome (r r' : response) (a b : result json) : Prop :=
  (∃ X, a = Return X ∧ b = Return X) ∨
  (a = Raise (AuthenticationError (text r)) ∧
   b = Raise (AuthenticationError (text r'))).

(** A successful response of each endpoint: the success marker of the
    interface table. *)
Definition succeeds (ep : endpoint) (r : response) : bool :=
  match json_body r with
  | Some (JObj fields) =>
      match ep with
      | Token =>
          match fields !! "access_token" with
          | Some (JStr s) => negb (String.eqb s EmptyString)
          | _ => false
          end
      | Upload =>
          is_2xx (status_code r) &&
          match fields !! "uploadState" with
          | Some (JStr s) => String.eqb s "SUCCESS"
          | _ => false
          end
      | Publish =>
          is_2xx (status_code r) &&
          match fields !! "status" with
          | Some (JArr items) => forallb (λ v, eq_str v "OK") items
          | Some _ => false
          | None => true
          end
      end
  | _ => false
  end.

(** The process starts with an empty trace and the three standard
    streams. *)
Definition initial : state :=
  {| trace := []; next_fd := 3; open_fds := ∅ |}.

(** ** Sample worlds *)

Module Sample.

(** [str] on the values the samples use. *)
Definition str (v : json) : string :=
  match v with
  | JStr s => s
  | JNull => "None"
  | JBool true => "True"
  | JBool false => "False"
  | _ => "?"
  end.

Definition env : gmap string string :=
  list_to_map
    [ ("WEBSTORE_CLIENT_ID", "id"); ("WEBSTORE_CLIENT_SECRET", "secret");
      ("WEBSTORE_REFRESH_TOKEN", "refresh"); ("EXTENSION_ID", "abc");
      ("FILE_NAME", "ext.zip"); ("PUBLISH_TARGET", "default") ].

Definition disk : gmap string string := {[ "ext.zip" := "PK" ]}.

(** A JSON object with one member, as it is written and as it is
    decoded. *)
Definition quoted (s : string) : string :=
  String (Ascii.ascii_of_nat 34) (s +:+ String (Ascii.ascii_of_nat 34) EmptyString).

Definition member_text (k v : string) : string :=
  "{" +:+ quoted k +:+ ": " +:+ v +:+ "}".

Definition member (code : Z) (k : string) (v_text : string) (v : json)
    : response :=
  MkResponse code (member_text k v_text) (Some (JObj {[ k := v ]})).

Definition token_ok : response :=
  member 200 "access_token" (quoted "X") (JStr "X").

Definition upload_ok : response :=
  member 200 "uploadState" (quoted "SUCCESS") (JStr "SUCCESS").

Definition publish_ok : response :=
  member 200 "status" ("[" +:+ quoted "OK" +:+ "]") (JArr [JStr "OK"]).

(** The responses of the endpoints when they refuse. *)
Definition empty_object : response := MkResponse 200 "{}" (Some (JObj ∅)).

Definition token_empty : response :=
  member 200 "access_token" (quoted EmptyString) (JStr EmptyString).

Definition upload_failure : response :=
  member 200 "uploadState" (quoted "FAILURE") (JStr "FAILURE").

Definition publish_not_found : response :=
  member 200 "status" ("[" +:+ quoted "ITEM_NOT_FOUND" +:+ "]")
    (JArr [JStr "ITEM_NOT_FOUND"]).

Definition server_error : response :=
  member 500 "uploadState" (quoted "SUCCESS") (JStr "SUCCESS").

(** 304 Not Modified, with the body of a success. *)
Definition not_modified : response :=
  member 304 "uploadState" (quoted "SUCCESS") (JStr "SUCCESS").

(** 403 Forbidden from the token endpoint, with a token in the body. *)
Definition token_forbidden : response :=
  member 403 "access_token" (quoted "X") (JStr "X").

(** A network that answers each endpoint with a fixed response. *)
Definition mock (t u p : response) (tr : list event) (req : request)
    : transport_error + response :=
  match endpoint_of req with
  | Some Token => inr t
  | Some Upload => inr u
  | Some Publish => inr p
  | None => inl ConnectionError
  end.

Definition served (t u p : response) : world :=
  MkWorld env disk (mock t u p).

Definition good : world := served token_ok upload_ok publish_ok.

Definition no_token : world := served empty_object upload_ok publish_ok.

Definition empty_token : world := served token_empty upload_ok publish_ok.

Definition forbidden_token : world :=
  served token_forbidden upload_ok publish_ok.

Definition upload_refused : world :=
  served token_ok upload_failure publish_ok.

Definition upload_not_modified : world :=
  served token_ok not_modified publish_ok.

Definition publish_refused : world :=
  served token_ok upload_ok publish_not_found.


Definition failing_server : world :=
  served token_ok server_error server_error.

(** The same, without the variable [k]. *)
Definition without (k : string) : world :=
  MkWorld (delete k env) disk (mock token_ok upload_ok publish_ok).

End Sample.

(** ** The requests of the three steps

    The arguments the script passes to [requests.post] and
    [requests.put], as one value each, to speak of the calls in a
    trace. *)

Definition token_request (client_id client_secret refresh_token : string)
    : request :=
  MkRequest POST "https://accounts.google.com/o/oauth2/token" ∅ ∅
    (FormData
       (<[ "client_id" := client_id ]>
       (<[ "client_secret" := client_secret ]>
       (<[ "refresh_token" := refresh_token ]>
       (<[ "grant_type" := "refresh_token" ]>
       (<[ "redirect_uri" := "urn:ietf:wg:oauth:2.0:oob" ]> ∅)))))).

Definition upload_request (str : json → string) (token : json)
    (extension_id : string) (f : file) : request :=
  MkRequest PUT
    ("https://www.googleapis.com/upload/chromewebstore/v1.1/items/"
     +:+ extension_id)
    ∅ (defaultHeaders str token) (FileData f).

Definition publish_request (str : json → string) (token : json)
    (extension_id publish_target : string) : request :=
  MkRequest POST
    ("https://www.googleapis.com/chromewebstore/v1.1/items/"
     +:+ extension_id +:+ "/publish")
    {[ "uploadType" := "media" ]}
    (<[ "publishTarget" := publish_target ]> (defaultHeaders str token))
    NoData.

(** The variables in the order the script reads them: [main] reads its
    three before it calls [getToken], which reads the credentials. *)
Definition lookup_order : list string :=
  target_variables ++ credential_variables.

(** The first variable of [ks] that [env] does not define. *)
Fixpoint first_missing (env : gmap string string) (ks : list string)
    : option string :=
  match ks with
  | [] => None
  | k :: rest =>
      match env !! k with
      | None => Some k
      | Some _ => first_missing env rest
      end
  end.

(** The endpoint [ep] gives no response: every call to it ends in the
    transport error [e]. *)
Definition unreachable (w : world) (ep : endpoint) (e : transport_error)
    : Prop :=
  ∀ tr req, endpoint_of req = Some ep → network w tr req = inl e.

(** [l1] is an initial segment of [l2]. *)
Definition initial_segment {A} (l1 l2 : list A) : Prop :=
  ∃ rest, l2 = l1 ++ rest.

(** ** More sample worlds *)

Module Edge.

(** A network on which the endpoint [down] times out and the others
    answer as in [Sample.good]. *)
Definition cut (down : endpoint) (tr : list event) (req : request)
    : transport_error + response :=
  match endpoint_of req, down with
  | Some Token, Token | Some Upload, Upload | Some Publish, Publish =>
      inl Timeout
  | _, _ => Sample.mock Sample.token_ok Sample.upload_ok Sample.publish_ok
              tr req
  end.

Definition offline (down : endpoint) : world :=
  MkWorld Sample.env Sample.disk (cut down).

(** The artifact is not on the disk. *)
Definition no_artifact : world :=
  MkWorld Sample.env ∅
    (Sample.mock Sample.token_ok Sample.upload_ok Sample.publish_ok).

(** No variable is set. *)
Definition bare : world :=
  MkWorld ∅ Sample.disk
    (Sample.mock Sample.token_ok Sample.upload_ok Sample.publish_ok).

(** A page that is not JSON, and a JSON array. *)
Definition html : response := MkResponse 200 "<html></html>" None.

Definition array : response := MkResponse 200 "[]" (Some (JArr [])).

(** 302 Found, with the body of a failed upload. *)
Definition found_failure : response :=
  Sample.member 302 "uploadState" (Sample.quoted "FAILURE") (JStr "FAILURE").

(** Publish responses whose [status] is not a list of strings. *)
Definition status_string : response :=
  Sample.member 200 "status" (Sample.quoted "OK") (JStr "OK").

Definition status_null : response :=
  Sample.member 200 "status" "null" JNull.

Definition status_mixed : response :=
  Sample.member 200 "status" "[1]" (JArr [JInt 1]).

Definition status_nested : response :=
  Sample.member 200 "status" "[[]]" (JArr [JArr []]).

Definition publishing (p : response) : world :=
  Sample.served Sample.token_ok Sample.upload_ok p.

Definition uploading (u : response) : world :=
  Sample.served Sample.token_ok u Sample.publish_ok.

Definition authenticating (t : response) : world :=
  Sample.served t Sample.upload_ok Sample.publish_ok.

End Edge.

(** ** Running the monad *)

Lemma bind_Return {A B} (m : M A) (k : A → M B) st a st' :
  m st = (Return a, st') → bind m k st = k a st'.
Proof. intros H. unfold bind. by rewrite H. Qed.

Lemma bind_Raise {A B} (m : M A) (k : A → M B) st e st' :
  m st = (Raise e, st') → bind m k st = (Raise e, st').
Proof. intros H. unfold bind. by rewrite H. Qed.

Lemma contains_append (prefix body : string) :
  contains (prefix +:+ body) body.
Proof.
  exists prefix, EmptyString. f_equal.
  induction body as [|c body IH]; [done |].
  change (String c body = String c (body +:+ EmptyString)). by f_equal.
Qed.

(** Unfold the script down to the state transformer it denotes. *)
Ltac script_unfold :=
  unfold main, getToken, upload, publish, with_file, open_file,
    requests_post, requests_put, send, response_json, raise_for_status,
    dict_get, environ_get, close, log, bind, ret, raise in *.

Ltac step := cbv beta iota zeta.

Ltac split_defined :=
  repeat match goal with
         | H : defined_in _ _ |- _ =>
             unfold defined_in, required_variables, credential_variables,
               target_variables in H; simpl in H
         | H : Forall _ (_ :: _) |- _ => apply Forall_cons in H as [[? ?] H]
         | H : Forall _ [] |- _ => clear H
         end.

Lemma emit_emit st evs1 evs2 :
  emit (emit st evs1) evs2 = emit st (evs1 ++ evs2).
Proof. unfold emit; simpl. by rewrite <- (assoc_L (++)). Qed.

Lemma upload_url_endpoint id hs d :
  endpoint_of
    (MkRequest PUT
       ("https://www.googleapis.com/upload/chromewebstore/v1.1/items/" +:+ id)
       ∅ hs d) = Some Upload.
Proof. by destruct id. Qed.

Lemma publish_url_endpoint id ps hs d :
  endpoint_of
    (MkRequest POST
       ("https://www.googleapis.com/chromewebstore/v1.1/items/"
        +:+ id +:+ "/publish")
       ps hs d) = Some Publish.
Proof. by destruct id. Qed.

Lemma emit_nil st : emit st [] = st.
Proof. destruct st. unfold emit; simpl. by rewrite app_nil_r. Qed.

Lemma network_calls_app evs1 evs2 :
  network_calls (evs1 ++ evs2) = network_calls evs1 ++ network_calls evs2.
Proof.
  induction evs1 as [|[] evs1 IH]; simpl; [done | by f_equal | done..].
Qed.

Lemma calls_app evs1 evs2 : calls (evs1 ++ evs2) = calls evs1 ++ calls evs2.
Proof. unfold calls. by rewrite network_calls_app, fmap_app. Qed.

Lemma decoded_app evs1 evs2 :
  decoded (evs1 ++ evs2) = decoded evs1 ++ decoded evs2.
Proof.
  induction evs1 as [|[] evs1 IH]; simpl; [done | done | by f_equal | done..].
Qed.

Lemma is_2xx_passes code :
  is_2xx code = true → (400 <=? code) && (code <? 600) = false.
Proof. unfold is_2xx. lia. Qed.

Lemma eq_str_spec v s : eq_str v s = true ↔ v = JStr s.
Proof.
  destruct v; simpl; try (split; [done | by intros [=]]).
  rewrite String.eqb_eq. split; [by intros -> | by intros [=]].
Qed.

(** The set built from a list of status codes. *)
Lemma set_of_codes (codes : list string) :
  set_of_items (JStr <$> codes) = Some (list_to_set (KStr <$> codes)).
Proof. induction codes as [|c codes IH]; csimpl; [done | by rewrite IH]. Qed.

Lemma no_errors_iff (codes : list string) :
  (list_to_set (KStr <$> codes) : gset key) ∖ {[ KStr "OK" ]} = ∅ ↔
  (list_to_set codes : gset string) ⊆ {[ "OK"%string ]}.
Proof.
  split.
  - intros Hempty c Hc. apply elem_of_singleton.
    destruct (decide (c = "OK"%string)) as [|Hne]; [done |].
    assert (KStr c ∈ (list_to_set (KStr <$> codes) : gset key) ∖ {[ KStr "OK" ]})
      as Hin; [| rewrite Hempty in Hin; set_solver].
    apply elem_of_difference. split.
    + apply elem_of_list_to_set, list_elem_of_fmap.
      exists c. split; [done |]. by apply elem_of_list_to_set in Hc.
    + intros [=]%elem_of_singleton. done.
  - intros Hsub. apply set_eq. intros k. split; [| set_solver].
    intros [Hk Hne]%elem_of_difference.
    apply elem_of_list_to_set, list_elem_of_fmap in Hk as (c & -> & Hc).
    assert (c ∈ (list_to_set codes : gset string)) as Hc'
      by by apply elem_of_list_to_set.
    apply Hsub, elem_of_singleton in Hc'. subst c. set_solver.
Qed.

Lemma all_ok_no_errors items :
  forallb (λ v, eq_str v "OK") items = true →
  ∃ statuses : gset key,
    set_of_items items = Some statuses ∧ statuses ∖ {[ KStr "OK" ]} = ∅.
Proof.
  induction items as [|v items IH]; simpl.
  - intros _. exists ∅. split; [done | set_solver].
  - intros [Hv Hrest]%andb_prop. apply eq_str_spec in Hv as ->.
    destruct (IH Hrest) as (statuses & -> & Hempty). simpl.
    eexists. split; [done | set_solver].
Qed.

Lemma succeeds_token r :
  succeeds Token r = true →
  ∃ fields token,
    json_body r = Some (JObj fields) ∧
    fields !! "access_token" = Some token ∧ truthy token = true.
Proof.
  unfold succeeds. destruct (json_body r) as [[| | | | |fields]|]; try done.
  destruct (fields !! "access_token") as [[]|] eqn:Hl; try done.
  intros Hs. by eexists _, _.
Qed.

Lemma succeeds_upload r :
  succeeds Upload r = true →
  is_2xx (status_code r) = true ∧
  ∃ fields,
    json_body r = Some (JObj fields) ∧
    fields !! "uploadState" = Some (JStr "SUCCESS").
Proof.
  unfold succeeds. destruct (json_body r) as [[| | | | |fields]|]; try done.
  intros [H2xx Hs]%andb_prop. split; [done |].
  destruct (fields !! "uploadState") as [[]|] eqn:Hl; try done.
  apply String.eqb_eq in Hs as ->. by eexists.
Qed.

Lemma succeeds_publish r :
  succeeds Publish r = true →
  is_2xx (status_code r) = true ∧
  ∃ fields statuses,
    json_body r = Some (JObj fields) ∧
    set_of (default (JArr []) (fields !! "status")) = Some statuses ∧
    statuses ∖ {[ KStr "OK" ]} = ∅.
Proof.
  unfold succeeds. destruct (json_body r) as [[| | | | |fields]|]; try done.
  intros [H2xx Hs]%andb_prop. split; [done |].
  destruct (fields !! "status") as [[]|] eqn:Hl; try done.
  - apply all_ok_no_errors in Hs as (statuses & Hset & Hempty).
    exists fields, statuses. rewrite Hl. split; [done |].
    split; [exact Hset | done].
  - exists fields, ∅. rewrite Hl. split; [done |]. split; [done |].
    set_solver.
Qed.

Section Properties.

Variable str : json → string.
Variable w : world.

Lemma environ_get_Some k v st :
  environ w !! k = Some v → environ_get w k st = (Return v, st).
Proof. intros H. unfold environ_get. by rewrite H. Qed.

Lemma environ_get_None k st :
  environ w !! k = None → environ_get w k st = (Raise (KeyError k), st).
Proof. intros H. unfold environ_get. by rewrite H. Qed.

(** [getToken] once its variables are found and the token endpoint has
    answered with a JSON object. *)
Lemma getToken_answered st r fields :
  defined_in (environ w) credential_variables →
  answers w Token r →
  json_body r = Some (JObj fields) →
  ∃ req, endpoint_of req = Some Token ∧
    getToken w st =
      (let token := default JNull (fields !! "access_token") in
       if truthy token then Return token
       else Raise (AuthenticationError (text r)),
       emit st [EvRequest req; EvJson r]).
Proof.
  intros Henv Hnet Hjson. split_defined.
  eexists. split; [| script_unfold].
  2: { repeat match goal with
              | H : environ w !! _ = Some _ |- _ => rewrite H; clear H
              end.
       step. rewrite Hnet by reflexivity. step. rewrite Hjson. step.
       rewrite emit_emit.
       by destruct (truthy _). }
  reflexivity.
Qed.

(** A body that is not JSON, or is JSON but not an object, ends
    [getToken] before the token is looked at. *)
Lemma getToken_body_not_object st r :
  defined_in (environ w) credential_variables →
  answers w Token r →
  (∀ fields, json_body r ≠ Some (JObj fields)) →
  (getToken w st).1 =
    match json_body r with
    | None => Raise JSONDecodeError
    | Some _ => Raise (AttributeError "get")
    end.
Proof.
  intros Henv Hnet Hjson. split_defined. script_unfold.
  repeat match goal with
         | H : environ w !! _ = Some _ |- _ => rewrite H; clear H
         end.
  step. rewrite Hnet by reflexivity. step.
  destruct (json_body r) as [[| | | | |fields]|]; try done.
  by destruct (Hjson fields).
Qed.

(** [upload] once the file is found and the upload endpoint has
    answered. *)
Lemma upload_answered st token id path bytes r :
  files w !! path = Some bytes →
  answers w Upload r →
  ∃ req, endpoint_of req = Some Upload ∧
    upload str w token id path st =
      (if (400 <=? status_code r) && (status_code r <? 600)
       then Raise (HTTPError r)
       else match json_body r with
            | Some (JObj fields) =>
                if eq_str (default JNull (fields !! "uploadState")) "SUCCESS"
                then Return tt
                else Raise (UploadError (text r))
            | Some _ => Raise (AttributeError "get")
            | None => Raise JSONDecodeError
            end,
       {| trace :=
            trace st ++
            [EvOpen path "rb" (next_fd st); EvRequest req] ++
            (if (400 <=? status_code r) && (status_code r <? 600)
             then [] else [EvJson r]) ++
            [EvClose (next_fd st)];
          next_fd := S (next_fd st);
          open_fds := ({[ next_fd st ]} ∪ open_fds st) ∖ {[ next_fd st ]} |}).
Proof.
  intros Hfile Hnet.
  eexists. split; [apply upload_url_endpoint |].
  script_unfold. rewrite Hfile. step.
  rewrite Hnet by apply upload_url_endpoint. step.
  unfold emit; simpl.
  destruct ((400 <=? status_code r) && (status_code r <? 600)); simpl.
  - by rewrite <- !(assoc_L (++)).
  - destruct (json_body r) as [[]|]; simpl;
      try destruct (eq_str _ _); simpl;
      by rewrite <- !(assoc_L (++)).
Qed.

(** [publish] once the publish endpoint has answered. *)
Lemma publish_answered st token id target r :
  answers w Publish r →
  ∃ req, endpoint_of req = Some Publish ∧
    publish str w token id target st =
      (if (400 <=? status_code r) && (status_code r <? 600)
       then Raise (HTTPError r)
       else match json_body r with
            | Some (JObj fields) =>
                match set_of (default (JArr []) (fields !! "status")) with
                | Some statuses =>
                    if bool_decide (statuses ∖ {[ KStr "OK" ]} = ∅)
                    then Return tt
                    else Raise (PublishError (text r))
                | None => Raise TypeError
                end
            | Some _ => Raise (AttributeError "get")
            | None => Raise JSONDecodeError
            end,
       emit st (EvRequest req ::
                if (400 <=? status_code r) && (status_code r <? 600)
                then [] else [EvJson r])).
Proof.
  intros Hnet.
  eexists. split; [apply publish_url_endpoint |].
  script_unfold.
  rewrite Hnet by apply publish_url_endpoint. step.
  destruct ((400 <=? status_code r) && (status_code r <? 600)); step.
  - done.
  - rewrite emit_emit.
    destruct (json_body r) as [[]|]; step; try done.
    destruct (set_of _); step; [| done].
    by destruct (bool_decide _).
Qed.

(** The calls [getToken] makes, whatever the world does: none when a
    variable is missing, otherwise one, to the token endpoint. *)
Lemma getToken_calls st :
  ∃ evs, (getToken w st).2 = emit st evs ∧
    ((evs = [] ∧ ∃ k, (getToken w st).1 = Raise (KeyError k) ∧
                      k ∈ credential_variables ∧
                      environ w !! k = None) ∨
     (calls evs = [Some Token] ∧
      defined_in (environ w) credential_variables)).
Proof.
  assert (Hmiss : ∀ k, k ∈ credential_variables → environ w !! k = None →
            ∃ evs, st = emit st evs ∧
              ((evs = [] ∧
                ∃ k', Raise (A:=json) (KeyError k) = Raise (KeyError k') ∧
                      k' ∈ credential_variables ∧ environ w !! k' = None) ∨
               (calls evs = [Some Token] ∧
                defined_in (environ w) credential_variables))).
  { intros k Hk Hnone. exists []. rewrite emit_nil. split; [done |].
    left. split; [done |]. by exists k. }
  script_unfold.
  destruct (environ w !! "WEBSTORE_CLIENT_ID") as [cid|] eqn:H1; step;
    [| apply Hmiss; [set_solver | done] ].
  destruct (environ w !! "WEBSTORE_CLIENT_SECRET") as [cs|] eqn:H2; step;
    [| apply Hmiss; [set_solver | done] ].
  destruct (environ w !! "WEBSTORE_REFRESH_TOKEN") as [rt|] eqn:H3; step;
    [| apply Hmiss; [set_solver | done] ].
  assert (Hdef : defined_in (environ w) credential_variables).
  { repeat constructor; eauto. }
  clear Hmiss.
  destruct (network w (trace st) _) as [e|r]; step.
  { eexists [_]. split; [done |]. right. by split. }
  rewrite emit_emit.
  exists [EvRequest
            (MkRequest POST "https://accounts.google.com/o/oauth2/token" ∅ ∅
               (FormData
                  (<[ "client_id" := cid ]>
                  (<[ "client_secret" := cs ]>
                  (<[ "refresh_token" := rt ]>
                  (<[ "grant_type" := "refresh_token" ]>
                  (<[ "redirect_uri" := "urn:ietf:wg:oauth:2.0:oob" ]> ∅)))))));
          EvJson r].
  split; [| right; by split].
  destruct (json_body r) as [[]|]; step; try done.
  by destruct (truthy _).
Qed.

(** [upload] on a file that exists, whatever the network does: the
    file is opened, one call goes to the upload endpoint, the body is
    decoded or not, and the file is closed. *)
Lemma upload_opened st token id path bytes :
  files w !! path = Some bytes →
  ∃ res req evs,
    endpoint_of req = Some Upload ∧
    (evs = [EvRequest req] ∨ ∃ r, evs = [EvRequest req; EvJson r]) ∧
    upload str w token id path st =
      (res,
       {| trace := trace st ++
                   [EvOpen path "rb" (next_fd st)] ++ evs ++
                   [EvClose (next_fd st)];
          next_fd := S (next_fd st);
          open_fds := ({[ next_fd st ]} ∪ open_fds st) ∖ {[ next_fd st ]} |}).
Proof.
  intros Hfile. script_unfold. rewrite Hfile. step.
  unfold emit; simpl.
  destruct (network w _ _) as [e|r]; step.
  { eexists _, _, [EvRequest _].
    split; [apply upload_url_endpoint |]. split; [by left |].
    simpl. by rewrite <- !(assoc_L (++)). }
  destruct ((400 <=? status_code r) && (status_code r <? 600)); step.
  { eexists _, _, [EvRequest _].
    split; [apply upload_url_endpoint |]. split; [by left |].
    simpl. by rewrite <- !(assoc_L (++)). }
  simpl.
  destruct (json_body r) as [[]|]; simpl;
    try destruct (eq_str _ _); simpl;
    (eexists _, _, [EvRequest _; EvJson r];
     split; [apply upload_url_endpoint |]; split; [right; by eexists |];
     simpl; by rewrite <- !(assoc_L (++))).
Qed.

Lemma upload_missing st token id path :
  files w !! path = None →
  upload str w token id path st = (Raise (OSError path), st).
Proof. intros Hfile. script_unfold. by rewrite Hfile. Qed.

Lemma upload_calls st token id path :
  ∃ evs, trace (upload str w token id path st).2 = trace st ++ evs ∧
    (calls evs = [] ∨ calls evs = [Some Upload]).
Proof.
  destruct (files w !! path) as [bytes|] eqn:Hfile.
  - destruct (upload_opened st token id path bytes Hfile)
      as (res & req & evs & Hep & Hevs & ->).
    eexists. split; [done |]. right.
    destruct Hevs as [-> | [r ->]]; unfold calls; simpl; by rewrite Hep.
  - rewrite upload_missing by done. exists []. split; [| by left].
    simpl. by rewrite app_nil_r.
Qed.

(** C3, as amended.  For a token response whose body is a JSON object:
    when the member [access_token] holds a non-empty (truthy) value [X],
    [getToken] returns [X]; when the member is absent or holds an
    empty (falsy) value, [getToken] raises the authentication error,
    whose message contains the raw body of the response. *)
Theorem getToken_access_token st r fields :
  defined_in (environ w) credential_variables →
  answers w Token r →
  json_body r = Some (JObj fields) →
  (∀ X, fields !! "access_token" = Some X → truthy X = true →
        (getToken w st).1 = Return X) ∧
  (fields !! "access_token" = None ∨
     (∃ X, fields !! "access_token" = Some X ∧ truthy X = false) →
   (getToken w st).1 = Raise (AuthenticationError (text r)) ∧
   ∀ msg, AuthenticationError (text r) = RuntimeError msg →
          contains msg (text r)).
Proof.
  intros Henv Hnet Hjson.
  destruct (getToken_answered st r fields Henv Hnet Hjson) as (req & _ & ->).
  split.
  - intros X -> Ht. simpl. by rewrite Ht.
  - intros Hno. split.
    + destruct Hno as [-> | (X & -> & Ht)]; simpl; [done | by rewrite Ht].
    + intros msg [= <-]. apply contains_append.
Qed.

(** C4, as amended.  For a 2xx upload response whose body is a JSON
    object: [upload] returns exactly when the member [uploadState] is the
    string SUCCESS, and otherwise raises the upload error, whose
    message contains the raw body of the response. *)
Theorem upload_state_check st token id path bytes r fields :
  files w !! path = Some bytes →
  answers w Upload r →
  is_2xx (status_code r) = true →
  json_body r = Some (JObj fields) →
  ((upload str w token id path st).1 = Return tt ↔
   fields !! "uploadState" = Some (JStr "SUCCESS")) ∧
  (fields !! "uploadState" ≠ Some (JStr "SUCCESS") →
   (upload str w token id path st).1 = Raise (UploadError (text r)) ∧
   ∀ msg, UploadError (text r) = RuntimeError msg → contains msg (text r)).
Proof.
  intros Hfile Hnet H2xx Hjson.
  destruct (upload_answered st token id path bytes r Hfile Hnet)
    as (req & _ & ->).
  rewrite (is_2xx_passes _ H2xx), Hjson. simpl.
  assert (eq_str (default JNull (fields !! "uploadState")) "SUCCESS" = true ↔
          fields !! "uploadState" = Some (JStr "SUCCESS")) as Heq.
  { rewrite eq_str_spec.
    destruct (fields !! "uploadState") as [v|]; simpl;
      [split; congruence | done]. }
  destruct (eq_str _ _).
  - split; [by rewrite <- Heq |]. intros Hne. by destruct Hne, Heq; auto.
  - split.
    + split; [done |]. intros Hs. apply Heq in Hs. done.
    + intros _. split; [done |]. intros msg [= <-]. apply contains_append.
Qed.

(** C5, as amended.  For an upload or publish response whose status
    is a 4xx or a 5xx, the operation raises [HTTPError] to its caller
    and the body of the response is not decoded. *)
Theorem http_error_status st token id path target bytes r :
  400 ≤ status_code r < 600 →
  (files w !! path = Some bytes → answers w Upload r →
   (upload str w token id path st).1 = Raise (HTTPError r) ∧
   decoded (trace (upload str w token id path st).2) = decoded (trace st)) ∧
  (answers w Publish r →
   (publish str w token id target st).1 = Raise (HTTPError r) ∧
   decoded (trace (publish str w token id target st).2) = decoded (trace st)).
Proof.
  intros Hcode.
  assert ((400 <=? status_code r) && (status_code r <? 600) = true) as Herr
    by lia.
  split.
  - intros Hfile Hnet.
    destruct (upload_answered st token id path bytes r Hfile Hnet)
      as (req & _ & ->).
    rewrite Herr. simpl. split; [done |].
    rewrite decoded_app. simpl. by rewrite app_nil_r.
  - intros Hnet.
    destruct (publish_answered st token id target r Hnet) as (req & _ & ->).
    rewrite Herr. simpl. split; [done |].
    rewrite decoded_app. simpl. by rewrite app_nil_r.
Qed.

(** C6.  For a 2xx publish response whose member [status] holds the
    collection [codes]: [publish] returns exactly when the set of the
    codes is included in the set of the one code OK, and otherwise
    raises the publish error, whose message contains the raw body of
    the response. *)
Theorem publish_status_check st token id target r fields codes :
  answers w Publish r →
  is_2xx (status_code r) = true →
  json_body r = Some (JObj fields) →
  fields !! "status" = Some (JArr (JStr <$> codes)) →
  ((publish str w token id target st).1 = Return tt ↔
   (list_to_set codes : gset string) ⊆ {[ "OK"%string ]}) ∧
  (¬ (list_to_set codes : gset string) ⊆ {[ "OK"%string ]} →
   (publish str w token id target st).1 = Raise (PublishError (text r)) ∧
   ∀ msg, PublishError (text r) = RuntimeError msg → contains msg (text r)).
Proof.
  intros Hnet H2xx Hjson Hstatus.
  destruct (publish_answered st token id target r Hnet) as (req & _ & ->).
  rewrite (is_2xx_passes _ H2xx), Hjson, Hstatus. simpl.
  rewrite set_of_codes. rewrite <- no_errors_iff.
  destruct (bool_decide_reflect
              ((list_to_set (KStr <$> codes) : gset key) ∖ {[ KStr "OK" ]} = ∅))
    as [Hempty | Hnonempty].
  - split; [done |]. by intros [].
  - split; [split; [done | by intros ?] |].
    intros _. split; [done |]. intros msg [= <-]. apply contains_append.
Qed.


(** C8.  [upload] opens the artifact with mode [rb] and closes it
    last, whatever the network answers and however the body of the
    [with] block ends: the descriptor it opened is not open when
    [upload] is left, with a result or with an exception, and no
    other descriptor was opened. *)
Theorem upload_closes_file st token id path bytes :
  files w !! path = Some bytes →
  let fd := next_fd st in
  let st' := (upload str w token id path st).2 in
  (∃ evs,
     trace st' = trace st ++ [EvOpen path "rb" fd] ++ evs ++ [EvClose fd] ∧
     Forall (λ e, file_event e = false) evs) ∧
  (fd ∉ open_fds st') ∧
  (open_fds st' ⊆ open_fds st).
Proof.
  intros Hfile fd st'. subst fd st'.
  destruct (upload_opened st token id path bytes Hfile)
    as (res & req & evs & _ & Hevs & ->).
  simpl. split; [| set_solver].
  exists evs. split; [done |].
  destruct Hevs as [-> | [r ->]]; by repeat constructor.
Qed.

(** [main] once its own three variables are found. *)
Lemma main_lookups st id path target :
  environ w !! "EXTENSION_ID" = Some id →
  environ w !! "FILE_NAME" = Some path →
  environ w !! "PUBLISH_TARGET" = Some target →
  main str w st =
    bind (getToken w) (λ token,
      bind (upload str w token id path) (λ _,
        publish str w token id target)) st.
Proof.
  intros H1 H2 H3. unfold main.
  rewrite (bind_Return _ _ st id st) by (by apply environ_get_Some).
  rewrite (bind_Return _ _ st path st) by (by apply environ_get_Some).
  rewrite (bind_Return _ _ st target st) by (by apply environ_get_Some).
  done.
Qed.

(** C1.  When the six variables are set, the artifact exists and each
    endpoint answers with a successful response, the script makes
    exactly three network calls, to the token endpoint, then to the
    upload endpoint, then to the publish endpoint, and the process
    exits with status 0. *)
Theorem main_success st :
  defined_in (environ w) required_variables →
  (∀ path, environ w !! "FILE_NAME" = Some path → is_Some (files w !! path)) →
  (∀ ep, ∃ r, answers w ep r ∧ succeeds ep r = true) →
  ∃ st' evs,
    script str w st = (0, st') ∧
    trace st' = trace st ++ evs ∧
    calls evs = [Some Token; Some Upload; Some Publish].
Proof.
  intros Henv Hfile Hnet.
  assert (defined_in (environ w) credential_variables) as Hcred.
  { unfold defined_in, required_variables in *.
    by apply Forall_app in Henv as [? _]. }
  revert Hcred. split_defined. intros Hcred.
  match goal with
  | H1 : environ w !! "EXTENSION_ID" = Some ?id,
    H2 : environ w !! "FILE_NAME" = Some ?path,
    H3 : environ w !! "PUBLISH_TARGET" = Some ?target |- _ =>
      unfold script; rewrite (main_lookups st id path target H1 H2 H3);
      destruct (Hfile path H2) as [bytes Hbytes]
  end.
  destruct (Hnet Token) as (r1 & Hr1 & Hs1).
  destruct (Hnet Upload) as (r2 & Hr2 & Hs2).
  destruct (Hnet Publish) as (r3 & Hr3 & Hs3).
  apply succeeds_token in Hs1 as (f1 & token & Hj1 & Hl1 & Ht1).
  apply succeeds_upload in Hs2 as (H2xx2 & f2 & Hj2 & Hl2).
  apply succeeds_publish in Hs3 as (H2xx3 & f3 & statuses & Hj3 & Hset & He).
  destruct (getToken_answered st r1 f1 Hcred Hr1 Hj1) as (q1 & Hq1 & Hrun1).
  rewrite Hl1 in Hrun1. simpl in Hrun1. rewrite Ht1 in Hrun1.
  erewrite bind_Return by exact Hrun1.
  match goal with
  | |- context [upload str w token ?id ?path] =>
      destruct (upload_answered (emit st [EvRequest q1; EvJson r1])
                  token id path bytes r2 Hbytes Hr2) as (q2 & Hq2 & Hrun2)
  end.
  rewrite (is_2xx_passes _ H2xx2), Hj2, Hl2 in Hrun2. simpl in Hrun2.
  erewrite bind_Return by exact Hrun2.
  match goal with
  | |- context [publish str w token ?id ?target ?st2] =>
      destruct (publish_answered st2 token id target r3 Hr3)
        as (q3 & Hq3 & Hrun3)
  end.
  rewrite (is_2xx_passes _ H2xx3), Hj3, Hset, He in Hrun3.
  simpl in Hrun3. rewrite Hrun3.
  eexists _, _. split; [done |]. simpl.
  rewrite <- !(assoc_L (++)). split; [done |].
  unfold calls. simpl. by rewrite Hq1, Hq2, Hq3.
Qed.

(** C2.  A step that raises ends [main] with that exception and no
    later step is attempted: when [getToken] raises, neither the
    upload nor the publish endpoint is called; when [upload] raises,
    whatever the error, the publish endpoint is not called. *)
Theorem failure_stops_later_steps st id path target :
  environ w !! "EXTENSION_ID" = Some id →
  environ w !! "FILE_NAME" = Some path →
  environ w !! "PUBLISH_TARGET" = Some target →
  (∀ e st1,
     getToken w st = (Raise e, st1) →
     main str w st = (Raise e, st1) ∧
     ∃ evs, trace st1 = trace st ++ evs ∧
            (Some Upload ∉ calls evs) ∧ (Some Publish ∉ calls evs)) ∧
  (∀ token st1 e st2,
     getToken w st = (Return token, st1) →
     upload str w token id path st1 = (Raise e, st2) →
     main str w st = (Raise e, st2) ∧
     ∃ evs, trace st2 = trace st ++ evs ∧ (Some Publish ∉ calls evs)).
Proof.
  intros H1 H2 H3. rewrite (main_lookups st id path target H1 H2 H3).
  destruct (getToken_calls st) as (evs1 & Hst1 & Hcalls1).
  assert (calls evs1 = [] ∨ calls evs1 = [Some Token]) as Hc1.
  { destruct Hcalls1 as [[-> _] | [? _]]; [by left | by right]. }
  clear Hcalls1. split.
  - intros e st1 Hrun. rewrite Hrun in Hst1. simpl in Hst1. subst st1.
    split; [by apply bind_Raise |].
    exists evs1. split; [done |].
    destruct Hc1 as [-> | ->]; set_solver.
  - intros token st1 e st2 Hrun Hup. rewrite Hrun in Hst1. simpl in Hst1.
    subst st1. split.
    + rewrite (bind_Return _ _ _ _ _ Hrun). by apply bind_Raise.
    + destruct (upload_calls (emit st evs1) token id path)
        as (evs2 & Htr & Hc2).
      rewrite Hup in Htr. simpl in Htr.
      exists (evs1 ++ evs2). split; [by rewrite (assoc_L (++)) |].
      rewrite calls_app.
      destruct Hc1 as [-> | ->], Hc2 as [-> | ->]; set_solver.
Qed.

(** C7.  When one of the six required variables is missing, [main]
    raises the lookup error of a missing required variable and the
    process exits with status 1, in the state it started in: no event
    was recorded, so no network call was made. *)
Theorem missing_variable_fails st k :
  k ∈ required_variables →
  environ w !! k = None →
  ∃ k', k' ∈ required_variables ∧ environ w !! k' = None ∧
    main str w st = (Raise (EnvironmentLookupError k'), st) ∧
    script str w st = (1, st) ∧
    ∀ evs, trace (main str w st).2 = trace st ++ evs → calls evs = [].
Proof.
  intros Hk Hnone.
  assert (∀ k', k' ∈ required_variables → environ w !! k' = None →
            main str w st = (Raise (KeyError k'), st) →
            ∃ k', k' ∈ required_variables ∧ environ w !! k' = None ∧
              main str w st = (Raise (EnvironmentLookupError k'), st) ∧
              script str w st = (1, st) ∧
              ∀ evs, trace (main str w st).2 = trace st ++ evs →
                     calls evs = []) as Hfail.
  { intros k' Hk' Hnone' Hmain. exists k'. unfold script. rewrite Hmain.
    repeat split; try done. simpl. intros evs Hevs.
    rewrite <- (app_nil_r (trace st)) in Hevs at 1.
    by apply app_inv_head in Hevs as <-. }
  destruct (environ w !! "EXTENSION_ID") as [id|] eqn:H1.
  2: { apply (Hfail "EXTENSION_ID"%string); [set_solver | done |].
       unfold main. apply bind_Raise. by apply environ_get_None. }
  destruct (environ w !! "FILE_NAME") as [path|] eqn:H2.
  2: { apply (Hfail "FILE_NAME"%string); [set_solver | done |].
       unfold main. rewrite (bind_Return _ _ st id st)
         by (by apply environ_get_Some).
       apply bind_Raise. by apply environ_get_None. }
  destruct (environ w !! "PUBLISH_TARGET") as [target|] eqn:H3.
  2: { apply (Hfail "PUBLISH_TARGET"%string); [set_solver | done |].
       unfold main.
       rewrite (bind_Return _ _ st id st) by (by apply environ_get_Some).
       rewrite (bind_Return _ _ st path st) by (by apply environ_get_Some).
       apply bind_Raise. by apply environ_get_None. }
  destruct (getToken_calls st) as (evs & Hst & [[-> Hmiss] | [_ Hdef]]).
  - destruct Hmiss as (k' & Hres & Hk' & Hnone').
    apply (Hfail k'); [set_solver | done |].
    rewrite (main_lookups st id path target H1 H2 H3).
    apply bind_Raise. rewrite emit_nil in Hst.
    destruct (getToken w st) as [res st1]. simpl in *. by subst.
  - exfalso. split_defined.
    unfold required_variables, credential_variables, target_variables in Hk.
    simpl in Hk.
    repeat match goal with
           | H : _ ∈ _ :: _ |- _ => apply elem_of_cons in H as [-> | H]
           | H : _ ∈ [] |- _ => by apply elem_of_nil in H
           end; congruence.
Qed.

End Properties.

(** C10.  [getToken] never raises [HTTPError]; a response that is not a
    2xx and holds a non-empty token yields that token; two responses
    whose JSON objects agree on the member [access_token] lead to the
    same outcome; and a response that differs from another in its
    status code only leads to the same result. *)
Theorem getToken_ignores_status (w : world) st :
  (∀ r0, (getToken w st).1 ≠ Raise (HTTPError r0)) ∧
  (∀ r fields X,
     defined_in (environ w) credential_variables →
     answers w Token r →
     is_2xx (status_code r) = false →
     json_body r = Some (JObj fields) →
     fields !! "access_token" = Some X → truthy X = true →
     (getToken w st).1 = Return X) ∧
  (∀ w' r r' fields fields',
     defined_in (environ w) credential_variables →
     defined_in (environ w') credential_variables →
     answers w Token r → answers w' Token r' →
     json_body r = Some (JObj fields) →
     json_body r' = Some (JObj fields') →
     fields !! "access_token" = fields' !! "access_token" →
     same_token_outcome r r' (getToken w st).1 (getToken w' st).1) ∧
  (∀ w' r code,
     environ w' = environ w →
     answers w Token r →
     answers w' Token (MkResponse code (text r) (json_body r)) →
     (getToken w' st).1 = (getToken w st).1).
Proof.
  split; [| split; [| split]].
  - intros r0. script_unfold.
    repeat (case_match; simplify_eq/=; try done).
  - intros r fields X Henv Hnet _ Hjson HX Ht.
    destruct (getToken_answered w st r fields Henv Hnet Hjson) as (req & _ & ->).
    rewrite HX. simpl. by rewrite Ht.
  - intros w' r r' fields fields' Henv Henv' Hnet Hnet' Hjson Hjson' Heq.
    destruct (getToken_answered w st r fields Henv Hnet Hjson) as (req & _ & ->).
    destruct (getToken_answered w' st r' fields' Henv' Hnet' Hjson')
      as (req' & _ & ->).
    simpl. rewrite <- Heq. unfold same_token_outcome.
    destruct (truthy _); [left; by eexists | by right].
  - intros w' r code Henv Hnet Hnet'. script_unfold. rewrite Henv.
    repeat (destruct (environ w !! _); step; [| done]).
    rewrite Hnet, Hnet' by reflexivity. step. simpl.
    destruct (json_body r) as [[]|]; step; try done.
    by destruct (truthy _).
Qed.


(** ** The properties on the sample worlds *)

Lemma mock_answers env disk t u p ep :
  answers (MkWorld env disk (Sample.mock t u p)) ep
    match ep with Token => t | Upload => u | Publish => p end.
Proof.
  intros tr req Hep. simpl. unfold Sample.mock. rewrite Hep. by destruct ep.
Qed.

Lemma sample_env_defined : defined_in Sample.env required_variables.
Proof.
  unfold defined_in, required_variables; simpl.
  repeat (constructor; [by eexists |]). constructor.
Qed.

Lemma sample_credentials_defined :
  defined_in Sample.env credential_variables.
Proof.
  unfold defined_in, credential_variables.
  repeat (constructor; [by eexists |]). constructor.
Qed.

Lemma main_success_witness :
  ∃ st' evs,
    script Sample.str Sample.good initial = (0, st') ∧
    trace st' = trace initial ++ evs ∧
    calls evs = [Some Token; Some Upload; Some Publish].
Proof.
  apply (main_success Sample.str Sample.good initial).
  - apply sample_env_defined.
  - intros path Hpath. vm_compute in Hpath. injection Hpath as <-.
    eexists. reflexivity.
  - intros ep. exists (match ep with
                       | Token => Sample.token_ok
                       | Upload => Sample.upload_ok
                       | Publish => Sample.publish_ok
                       end).
    split; [apply mock_answers |]. destruct ep; vm_compute; reflexivity.
Defined.

Lemma failure_stops_later_steps_witness :
  ∃ st2 evs,
    main Sample.str Sample.upload_refused initial
    = (Raise (UploadError (text Sample.upload_failure)), st2) ∧
    trace st2 = trace initial ++ evs ∧
    Some Publish ∉ calls evs.
Proof.
  set (w := Sample.upload_refused).
  assert (getToken w initial = (Return (JStr "X"), (getToken w initial).2))
    as Htoken by (vm_compute; reflexivity).
  assert (upload Sample.str w (JStr "X") "abc" "ext.zip"
            (getToken w initial).2
          = (Raise (UploadError (text Sample.upload_failure)),
             (upload Sample.str w (JStr "X") "abc" "ext.zip"
                (getToken w initial).2).2))
    as Hupload by (vm_compute; reflexivity).
  destruct (proj2 (failure_stops_later_steps Sample.str w initial
                     "abc" "ext.zip" "default" eq_refl eq_refl eq_refl)
              _ _ _ _ Htoken Hupload) as [Hmain (evs & Htrace & Hnone)].
  eexists _, evs. split; [exact Hmain |]. split; [exact Htrace | exact Hnone].
Defined.

Lemma getToken_access_token_witness :
  (getToken Sample.good initial).1 = Return (JStr "X") ∧
  (getToken Sample.no_token initial).1 = Raise (AuthenticationError "{}") ∧
  (getToken Sample.empty_token initial).1
  = Raise (AuthenticationError (text Sample.token_empty)).
Proof.
  split; [| split].
  - apply (proj1 (getToken_access_token Sample.good initial Sample.token_ok
                    {[ "access_token" := JStr "X" ]}
                    sample_credentials_defined
                    (mock_answers _ _ _ _ _ Token) eq_refl));
      reflexivity.
  - apply (proj2 (getToken_access_token Sample.no_token initial
                    Sample.empty_object ∅
                    sample_credentials_defined
                    (mock_answers _ _ _ _ _ Token) eq_refl)).
    left. reflexivity.
  - apply (proj2 (getToken_access_token Sample.empty_token initial
                    Sample.token_empty
                    {[ "access_token" := JStr EmptyString ]}
                    sample_credentials_defined
                    (mock_answers _ _ _ _ _ Token) eq_refl)).
    right. exists (JStr EmptyString). split; reflexivity.
Defined.

Lemma upload_state_check_witness :
  (upload Sample.str Sample.good (JStr "X") "abc" "ext.zip" initial).1
  = Return tt ∧
  (upload Sample.str Sample.upload_refused (JStr "X") "abc" "ext.zip"
     initial).1
  = Raise (UploadError (text Sample.upload_failure)).
Proof.
  split.
  - apply (proj1 (upload_state_check Sample.str Sample.good initial (JStr "X")
                    "abc" "ext.zip" "PK" Sample.upload_ok
                    {[ "uploadState" := JStr "SUCCESS" ]}
                    eq_refl (mock_answers _ _ _ _ _ Upload) eq_refl eq_refl)).
    reflexivity.
  - apply (proj2 (upload_state_check Sample.str Sample.upload_refused initial
                    (JStr "X") "abc" "ext.zip" "PK" Sample.upload_failure
                    {[ "uploadState" := JStr "FAILURE" ]}
                    eq_refl (mock_answers _ _ _ _ _ Upload) eq_refl eq_refl)).
    vm_compute. discriminate.
Defined.

(** The counterexample to C3 as stated: a token response whose body
    has no [access_token] field because it is a JSON array, or not JSON
    at all, does not end [getToken] with the authentication error and
    the raw body, but with the error of [get] or of the decoding. *)
Lemma getToken_not_json_object :
  (answers (Edge.authenticating Edge.array) Token Edge.array ∧
   json_body Edge.array = Some (JArr []) ∧
   (getToken (Edge.authenticating Edge.array) initial).1
   = Raise (AttributeError "get") ∧
   ∀ body, (getToken (Edge.authenticating Edge.array) initial).1
           ≠ Raise (AuthenticationError body)) ∧
  (answers (Edge.authenticating Edge.html) Token Edge.html ∧
   json_body Edge.html = None ∧
   (getToken (Edge.authenticating Edge.html) initial).1
   = Raise JSONDecodeError ∧
   ∀ body, (getToken (Edge.authenticating Edge.html) initial).1
           ≠ Raise (AuthenticationError body)).
Proof.
  assert ((getToken (Edge.authenticating Edge.array) initial).1
          = Raise (AttributeError "get")) as Harray
    by (vm_compute; reflexivity).
  assert ((getToken (Edge.authenticating Edge.html) initial).1
          = Raise JSONDecodeError) as Hhtml
    by (vm_compute; reflexivity).
  split.
  - split; [apply (mock_answers _ _ _ _ _ Token) |]. split; [reflexivity |].
    split; [exact Harray |]. intros body. rewrite Harray. discriminate.
  - split; [apply (mock_answers _ _ _ _ _ Token) |]. split; [reflexivity |].
    split; [exact Hhtml |]. intros body. rewrite Hhtml. discriminate.
Qed.

(** The counterexample to C4 as stated: a 200 upload response whose
    body is a JSON array, or not JSON at all, makes [upload] neither
    return nor raise the upload error with the raw body; it raises the
    error of [get] or of the decoding. *)
Lemma upload_not_json_object :
  (is_2xx (status_code Edge.array) = true ∧
   answers (Edge.uploading Edge.array) Upload Edge.array ∧
   files (Edge.uploading Edge.array) !! "ext.zip" = Some "PK"%string ∧
   (upload Sample.str (Edge.uploading Edge.array) (JStr "X") "abc" "ext.zip"
      initial).1 = Raise (AttributeError "get") ∧
   ∀ body, (upload Sample.str (Edge.uploading Edge.array) (JStr "X") "abc"
              "ext.zip" initial).1 ≠ Raise (UploadError body)) ∧
  (is_2xx (status_code Edge.html) = true ∧
   answers (Edge.uploading Edge.html) Upload Edge.html ∧
   files (Edge.uploading Edge.html) !! "ext.zip" = Some "PK"%string ∧
   (upload Sample.str (Edge.uploading Edge.html) (JStr "X") "abc" "ext.zip"
      initial).1 = Raise JSONDecodeError ∧
   ∀ body, (upload Sample.str (Edge.uploading Edge.html) (JStr "X") "abc"
              "ext.zip" initial).1 ≠ Raise (UploadError body)).
Proof.
  assert ((upload Sample.str (Edge.uploading Edge.array) (JStr "X") "abc"
             "ext.zip" initial).1 = Raise (AttributeError "get")) as Harray
    by (vm_compute; reflexivity).
  assert ((upload Sample.str (Edge.uploading Edge.html) (JStr "X") "abc"
             "ext.zip" initial).1 = Raise JSONDecodeError) as Hhtml
    by (vm_compute; reflexivity).
  split.
  - split; [reflexivity |].
    split; [apply (mock_answers _ _ _ _ _ Upload) |]. split; [reflexivity |].
    split; [exact Harray |]. intros body. rewrite Harray. discriminate.
  - split; [reflexivity |].
    split; [apply (mock_answers _ _ _ _ _ Upload) |]. split; [reflexivity |].
    split; [exact Hhtml |]. intros body. rewrite Hhtml. discriminate.
Qed.

Lemma http_error_status_witness :
  ((upload Sample.str Sample.failing_server (JStr "X") "abc" "ext.zip"
      initial).1
   = Raise (HTTPError Sample.server_error) ∧
   decoded (trace (upload Sample.str Sample.failing_server (JStr "X") "abc"
                     "ext.zip" initial).2)
   = decoded (trace initial)) ∧
  ((publish Sample.str Sample.failing_server (JStr "X") "abc" "default"
      initial).1
   = Raise (HTTPError Sample.server_error) ∧
   decoded (trace (publish Sample.str Sample.failing_server (JStr "X") "abc"
                     "default" initial).2)
   = decoded (trace initial)).
Proof.
  assert (400 ≤ status_code Sample.server_error < 600) as Hcode
    by (simpl; lia).
  split.
  - apply (proj1 (http_error_status Sample.str Sample.failing_server initial
                    (JStr "X") "abc" "ext.zip" "default" "PK"
                    Sample.server_error Hcode));
      [reflexivity | apply (mock_answers _ _ _ _ _ Upload)].
  - apply (proj2 (http_error_status Sample.str Sample.failing_server initial
                    (JStr "X") "abc" "ext.zip" "default" "PK"
                    Sample.server_error Hcode)).
    apply (mock_answers _ _ _ _ _ Publish).
Defined.

(** The counterexample to C5 as stated: a 304 response is not a 2xx, yet
    [upload] decodes its body and returns. *)
Lemma upload_not_modified_returns :
  is_2xx (status_code Sample.not_modified) = false ∧
  files Sample.upload_not_modified !! "ext.zip" = Some "PK"%string ∧
  answers Sample.upload_not_modified Upload Sample.not_modified ∧
  (upload Sample.str Sample.upload_not_modified (JStr "X") "abc" "ext.zip"
     initial).1 = Return tt ∧
  (∀ r, (upload Sample.str Sample.upload_not_modified (JStr "X") "abc"
           "ext.zip" initial).1 ≠ Raise (HTTPError r)) ∧
  decoded (trace (upload Sample.str Sample.upload_not_modified (JStr "X")
                    "abc" "ext.zip" initial).2)
  = [Sample.not_modified].
Proof.
  assert ((upload Sample.str Sample.upload_not_modified (JStr "X") "abc"
             "ext.zip" initial).1 = Return tt) as Hreturns
    by (vm_compute; reflexivity).
  split; [reflexivity |]. split; [reflexivity |].
  split; [apply (mock_answers _ _ _ _ _ Upload) |].
  split; [exact Hreturns |].
  split; [intros r; rewrite Hreturns; discriminate |].
  vm_compute. reflexivity.
Qed.

Lemma publish_status_check_witness :
  (publish Sample.str Sample.good (JStr "X") "abc" "default" initial).1
  = Return tt ∧
  (publish Sample.str Sample.publish_refused (JStr "X") "abc" "default"
     initial).1
  = Raise (PublishError (text Sample.publish_not_found)).
Proof.
  split.
  - apply (proj1 (publish_status_check Sample.str Sample.good initial
                    (JStr "X") "abc" "default" Sample.publish_ok
                    {[ "status" := JArr [JStr "OK"] ]} ["OK"%string]
                    (mock_answers _ _ _ _ _ Publish) eq_refl eq_refl eq_refl)).
    vm_compute. intros x Hx. exact Hx.
  - apply (proj2 (publish_status_check Sample.str Sample.publish_refused
                    initial (JStr "X") "abc" "default"
                    Sample.publish_not_found
                    {[ "status" := JArr [JStr "ITEM_NOT_FOUND"] ]}
                    ["ITEM_NOT_FOUND"%string]
                    (mock_answers _ _ _ _ _ Publish) eq_refl eq_refl eq_refl)).
    intros Hsub.
    assert ("ITEM_NOT_FOUND"%string ∈ ({[ "OK"%string ]} : gset string)) as Hin
      by (apply Hsub; set_solver).
    apply elem_of_singleton in Hin. discriminate Hin.
Defined.

Lemma missing_variable_fails_witness :
  ∃ k', k' ∈ required_variables ∧
    environ (Sample.without "FILE_NAME") !! k' = None ∧
    main Sample.str (Sample.without "FILE_NAME") initial
    = (Raise (EnvironmentLookupError k'), initial) ∧
    script Sample.str (Sample.without "FILE_NAME") initial = (1, initial) ∧
    ∀ evs,
      trace (main Sample.str (Sample.without "FILE_NAME") initial).2
      = trace initial ++ evs →
      calls evs = [].
Proof.
  apply (missing_variable_fails Sample.str (Sample.without "FILE_NAME")
           initial "FILE_NAME").
  - unfold required_variables, credential_variables, target_variables.
    simpl. do 4 apply list_elem_of_further. apply list_elem_of_here.
  - vm_compute. reflexivity.
Defined.

Lemma upload_closes_file_witness :
  let st' := (upload Sample.str Sample.failing_server (JStr "X") "abc"
                "ext.zip" initial).2 in
  (∃ evs,
     trace st' = trace initial ++ [EvOpen "ext.zip" "rb" 3] ++ evs ++ [EvClose 3] ∧
     Forall (λ e, file_event e = false) evs) ∧
  (3%nat ∉ open_fds st') ∧
  (open_fds st' ⊆ open_fds initial).
Proof.
  apply (upload_closes_file Sample.str Sample.failing_server initial
           (JStr "X") "abc" "ext.zip" "PK").
  reflexivity.
Defined.


Lemma getToken_ignores_status_witness :
  (getToken Sample.forbidden_token initial).1 = Return (JStr "X") ∧
  (getToken Sample.forbidden_token initial).1 = (getToken Sample.good initial).1.
Proof.
  split.
  - apply (proj1 (proj2 (getToken_ignores_status Sample.forbidden_token
                           initial))
             Sample.token_forbidden {[ "access_token" := JStr "X" ]} (JStr "X")
             sample_credentials_defined (mock_answers _ _ _ _ _ Token));
      reflexivity.
  - apply (proj2 (proj2 (proj2 (getToken_ignores_status Sample.good initial)))
             Sample.forbidden_token Sample.token_ok 403 eq_refl
             (mock_answers _ _ _ _ _ Token) (mock_answers _ _ _ _ _ Token)).
Defined.

(** ** The anatomy of a run *)

Section Anatomy.

Variable str : json → string.
Variable w : world.

(** [getToken] with its variables set: one call, with the credentials,
    then at most the decoding of the answer; no lookup error. *)
Lemma getToken_run st cid cs rt :
  environ w !! "WEBSTORE_CLIENT_ID" = Some cid →
  environ w !! "WEBSTORE_CLIENT_SECRET" = Some cs →
  environ w !! "WEBSTORE_REFRESH_TOKEN" = Some rt →
  ∃ res evs,
    getToken w st = (res, emit st (EvRequest (token_request cid cs rt) :: evs)) ∧
    (evs = [] ∨ ∃ r, evs = [EvJson r]) ∧
    (∀ k, res ≠ Raise (KeyError k)).
Proof.
  intros H1 H2 H3. script_unfold. rewrite H1, H2, H3. step.
  fold (token_request cid cs rt).
  destruct (network w (trace st) _) as [e|r]; step.
  { eexists _, []. split; [done |]. split; [by left | done]. }
  rewrite emit_emit. simpl.
  destruct (json_body r) as [[]|]; step;
    try destruct (truthy _); step;
    (eexists _, [EvJson r]; split; [done |]; split; [right; by eexists | done]).
Qed.

(** [upload] of a file that exists: the file is opened, one call is
    made with the open file as its body, the answer is decoded at most
    once, and the file is closed. *)
Lemma upload_run st token id path bytes :
  files w !! path = Some bytes →
  ∃ res evs,
    upload str w token id path st =
      (res,
       {| trace := trace st ++
                   [EvOpen path "rb" (next_fd st);
                    EvRequest (upload_request str token id
                                 (MkFile (next_fd st) path "rb" bytes))] ++
                   evs ++ [EvClose (next_fd st)];
          next_fd := S (next_fd st);
          open_fds := ({[ next_fd st ]} ∪ open_fds st) ∖ {[ next_fd st ]} |}) ∧
    (evs = [] ∨ ∃ r, evs = [EvJson r]) ∧
    (∀ k, res ≠ Raise (KeyError k)).
Proof.
  intros Hfile. script_unfold. rewrite Hfile. step.
  unfold emit; simpl.
  fold (upload_request str token id (MkFile (next_fd st) path "rb" bytes)).
  destruct (network w _ _) as [e|r]; step.
  { eexists _, [].
    split; [simpl; by rewrite <- !(assoc_L (++)) |].
    split; [by left | done]. }
  destruct ((400 <=? status_code r) && (status_code r <? 600)); step.
  { eexists _, [].
    split; [simpl; by rewrite <- !(assoc_L (++)) |].
    split; [by left | done]. }
  simpl.
  destruct (json_body r) as [[]|]; simpl;
    try destruct (eq_str _ _); simpl;
    (eexists _, [EvJson r];
     split; [simpl; by rewrite <- !(assoc_L (++)) |];
     split; [right; by eexists | done]).
Qed.

(** [publish]: one call, then at most the decoding of the answer. *)
Lemma publish_run st token id target :
  ∃ res evs,
    publish str w token id target st =
      (res, emit st (EvRequest (publish_request str token id target) :: evs)) ∧
    (evs = [] ∨ ∃ r, evs = [EvJson r]) ∧
    (∀ k, res ≠ Raise (KeyError k)).
Proof.
  script_unfold. fold (publish_request str token id target).
  destruct (network w _ _) as [e|r]; step.
  { eexists _, []. split; [done |]. split; [by left | done]. }
  destruct ((400 <=? status_code r) && (status_code r <? 600)); step.
  { eexists _, []. split; [done |]. split; [by left | done]. }
  rewrite emit_emit. simpl.
  destruct (json_body r) as [[]|]; step;
    try destruct (set_of _); step;
    try destruct (bool_decide _); step;
    (eexists _, [EvJson r]; split; [done |]; split; [right; by eexists | done]).
Qed.

Lemma upload_request_endpoint token id f :
  endpoint_of (upload_request str token id f) = Some Upload.
Proof. apply upload_url_endpoint. Qed.

Lemma publish_request_endpoint token id target :
  endpoint_of (publish_request str token id target) = Some Publish.
Proof. apply publish_url_endpoint. Qed.

(** The ways [upload] ends: without a call when the file is missing,
    with one call otherwise; no descriptor stays open. *)
Lemma upload_outcomes st token id path :
  ∃ res st' evs,
    upload str w token id path st = (res, st') ∧
    trace st' = trace st ++ evs ∧
    open_fds st' ⊆ open_fds st ∧
    ((calls evs = [] ∧ res = Raise (OSError path)) ∨
     calls evs = [Some Upload]).
Proof.
  destruct (files w !! path) as [bytes|] eqn:Hfile.
  - destruct (upload_run st token id path bytes Hfile)
      as (res & evs & -> & Hevs & _).
    eexists _, _, _. split; [done |]. split; [done |].
    split; [simpl; set_solver |]. right.
    destruct Hevs as [-> | [r ->]]; unfold calls; simpl;
      by rewrite upload_request_endpoint.
  - rewrite upload_missing by done. exists (Raise (OSError path)), st, [].
    split; [done |]. split; [by rewrite app_nil_r |]. split; [done |].
    by left.
Qed.

Lemma publish_outcomes st token id target :
  ∃ res evs,
    publish str w token id target st = (res, emit st evs) ∧
    calls evs = [Some Publish].
Proof.
  destruct (publish_run st token id target) as (res & evs & -> & Hevs & _).
  eexists _, _. split; [done |].
  destruct Hevs as [-> | [r ->]]; unfold calls; simpl;
    by rewrite publish_request_endpoint.
Qed.

(** The ways [main] ends, by the calls it has made. *)
Lemma main_outcomes st :
  ∃ res st' evs,
    main str w st = (res, st') ∧
    trace st' = trace st ++ evs ∧
    open_fds st' ⊆ open_fds st ∧
    ((calls evs = [] ∧ ∃ e, res = Raise e) ∨
     (calls evs = [Some Token] ∧ ∃ e, res = Raise e) ∨
     (calls evs = [Some Token; Some Upload] ∧ ∃ e, res = Raise e) ∨
     calls evs = [Some Token; Some Upload; Some Publish]).
Proof.
  assert (∀ e, main str w st = (Raise e, st) →
            ∃ res st' evs,
              main str w st = (res, st') ∧
              trace st' = trace st ++ evs ∧
              open_fds st' ⊆ open_fds st ∧
              ((calls evs = [] ∧ ∃ e, res = Raise e) ∨
               (calls evs = [Some Token] ∧ ∃ e, res = Raise e) ∨
               (calls evs = [Some Token; Some Upload] ∧ ∃ e, res = Raise e) ∨
               calls evs = [Some Token; Some Upload; Some Publish])) as Hearly.
  { intros e Hmain. exists (Raise e), st, []. split; [done |].
    split; [by rewrite app_nil_r |]. split; [done |]. left. by eauto. }
  destruct (environ w !! "EXTENSION_ID") as [id|] eqn:H1.
  2: { eapply Hearly. unfold main. apply bind_Raise.
       by apply environ_get_None. }
  destruct (environ w !! "FILE_NAME") as [path|] eqn:H2.
  2: { eapply Hearly. unfold main.
       rewrite (bind_Return _ _ st id st) by (by apply environ_get_Some).
       apply bind_Raise. by apply environ_get_None. }
  destruct (environ w !! "PUBLISH_TARGET") as [target|] eqn:H3.
  2: { eapply Hearly. unfold main.
       rewrite (bind_Return _ _ st id st) by (by apply environ_get_Some).
       rewrite (bind_Return _ _ st path st) by (by apply environ_get_Some).
       apply bind_Raise. by apply environ_get_None. }
  clear Hearly. rewrite (main_lookups str w st id path target H1 H2 H3).
  destruct (getToken_calls w st) as (evs1 & Hst1 & Hcalls1).
  destruct (getToken w st) as [[token|e] st1] eqn:Htoken;
    simpl in Hst1; subst st1.
  2: { rewrite (bind_Raise _ _ _ _ _ Htoken).
       eexists _, _, evs1. split; [done |]. split; [done |].
       split; [done |].
       destruct Hcalls1 as [[-> _] | [-> _]]; [left | right; left]; eauto. }
  rewrite (bind_Return _ _ _ _ _ Htoken).
  assert (calls evs1 = [Some Token]) as Hc1.
  { destruct Hcalls1 as [[_ (k & Hk & _)] | [? _]]; [| done].
    simpl in Hk. discriminate Hk. }
  destruct (upload_outcomes (emit st evs1) token id path)
    as (res2 & st2 & evs2 & Hupload & Htr2 & Hfds2 & Hcalls2).
  simpl in Htr2, Hfds2.
  destruct res2 as [[]|e].
  2: { rewrite (bind_Raise _ _ _ _ _ Hupload).
       eexists _, _, (evs1 ++ evs2). split; [done |].
       split; [by rewrite (assoc_L (++)) |]. split; [done |].
       rewrite calls_app, Hc1.
       destruct Hcalls2 as [[-> _] | ->];
         [right; left | right; right; left]; eauto. }
  rewrite (bind_Return _ _ _ _ _ Hupload).
  assert (calls evs2 = [Some Upload]) as Hc2.
  { by destruct Hcalls2 as [[_ ?] | ?]. }
  destruct (publish_outcomes st2 token id target)
    as (res3 & evs3 & -> & Hc3).
  eexists _, _, (evs1 ++ evs2 ++ evs3). split; [done |].
  split; [simpl; by rewrite Htr2, <- !(assoc_L (++)) |].
  split; [done |].
  do 3 right. by rewrite !calls_app, Hc1, Hc2, Hc3.
Qed.

End Anatomy.

(** ** Further properties of the script *)

Lemma first_missing_Some env ks k :
  first_missing env ks = Some k → k ∈ ks ∧ env !! k = None.
Proof.
  induction ks as [|k' ks IH]; simpl; [done |].
  destruct (env !! k') eqn:Hk'.
  - intros Hfm. destruct (IH Hfm). split; [by apply list_elem_of_further | done].
  - intros [= <-]. split; [apply list_elem_of_here | done].
Qed.

Lemma hash_key_OK v : hash_key v = Some (KStr "OK") ↔ v = JStr "OK".
Proof. destruct v as [|[]| | | |]; simpl; split; congruence. Qed.

(** The keys of the set built from a list are the keys of its items. *)
Lemma set_of_items_elem items (statuses : gset key) :
  set_of_items items = Some statuses →
  ∀ k, k ∈ statuses ↔ ∃ v, v ∈ items ∧ hash_key v = Some k.
Proof.
  revert statuses. induction items as [|v items IH]; simpl; intros statuses.
  - intros [= <-] k. split; [set_solver |]. intros (v & Hv & _).
    by apply elem_of_nil in Hv.
  - destruct (hash_key v) as [kv|] eqn:Hkv; [| done].
    destruct (set_of_items items) as [rest|]; [| done].
    intros [= <-] k. rewrite elem_of_union, elem_of_singleton, (IH rest eq_refl).
    split.
    + intros [-> | (v' & Hv' & Hk)].
      * exists v. split; [apply list_elem_of_here | done].
      * exists v'. split; [by apply list_elem_of_further | done].
    + intros (v' & Hv' & Hk). apply elem_of_cons in Hv' as [-> | Hv'].
      * left. congruence.
      * right. by exists v'.
Qed.

Lemma set_of_items_None items :
  set_of_items items = None ↔ Exists (λ v, hash_key v = None) items.
Proof.
  induction items as [|v items IH]; simpl.
  - split; [done | by intros ?%Exists_nil].
  - rewrite Exists_cons, <- IH.
    destruct (hash_key v), (set_of_items items); naive_solver.
Qed.

Section Coverage.

Variable str : json → string.
Variable w : world.

(** [main] either stops at one of its own three lookups, before
    anything is done, or finds the three variables. *)
Lemma main_target_cases st :
  (∃ k, main str w st = (Raise (KeyError k), st)) ∨
  (∃ id path target,
     environ w !! "EXTENSION_ID" = Some id ∧
     environ w !! "FILE_NAME" = Some path ∧
     environ w !! "PUBLISH_TARGET" = Some target).
Proof.
  destruct (environ w !! "EXTENSION_ID") as [id|] eqn:H1.
  2: { left. eexists. unfold main. apply bind_Raise.
       by apply environ_get_None. }
  destruct (environ w !! "FILE_NAME") as [path|] eqn:H2.
  2: { left. eexists. unfold main.
       rewrite (bind_Return _ _ st id st) by (by apply environ_get_Some).
       apply bind_Raise. by apply environ_get_None. }
  destruct (environ w !! "PUBLISH_TARGET") as [target|] eqn:H3.
  2: { left. eexists. unfold main.
       rewrite (bind_Return _ _ st id st) by (by apply environ_get_Some).
       rewrite (bind_Return _ _ st path st) by (by apply environ_get_Some).
       apply bind_Raise. by apply environ_get_None. }
  right. by exists id, path, target.
Qed.

(** The calls [main] has made when one of its first two steps
    raises. *)
Lemma main_stops_at_failure st id path target :
  environ w !! "EXTENSION_ID" = Some id →
  environ w !! "FILE_NAME" = Some path →
  environ w !! "PUBLISH_TARGET" = Some target →
  (∀ e st1,
     getToken w st = (Raise e, st1) →
     ∃ evs, trace (main str w st).2 = trace st ++ evs ∧
            (calls evs = [] ∨ calls evs = [Some Token])) ∧
  (∀ token st1 e st2,
     getToken w st = (Return token, st1) →
     upload str w token id path st1 = (Raise e, st2) →
     ∃ evs, trace (main str w st).2 = trace st ++ evs ∧
            (calls evs = [Some Token] ∨
             calls evs = [Some Token; Some Upload])).
Proof.
  intros H1 H2 H3. rewrite (main_lookups str w st id path target H1 H2 H3).
  destruct (getToken_calls w st) as (evs1 & Hst1 & Hcalls1). split.
  - intros e st1 Htoken. rewrite (bind_Raise _ _ _ _ _ Htoken).
    rewrite Htoken in Hst1. simpl in *. subst st1.
    exists evs1. split; [done |].
    destruct Hcalls1 as [[-> _] | [-> _]]; [by left | by right].
  - intros token st1 e st2 Htoken Hupload.
    rewrite (bind_Return _ _ _ _ _ Htoken).
    rewrite (bind_Raise _ _ _ _ _ Hupload).
    rewrite Htoken in Hst1, Hcalls1. simpl in *. subst st1.
    destruct Hcalls1 as [[_ (k & [=] & _)] | [Hc1 _]].
    destruct (upload_outcomes str w (emit st evs1) token id path)
      as (res2 & st2' & evs2 & Hup & Htr2 & _ & Hcalls2).
    rewrite Hupload in Hup. injection Hup as <- <-. simpl in Htr2.
    exists (evs1 ++ evs2). split; [by rewrite (assoc_L (++)) |].
    rewrite calls_app, Hc1.
    destruct Hcalls2 as [[-> _] | ->]; [by left | by right].
Qed.

(** X1.  Whatever the world does, the network calls of a run of [main]
    are an initial segment of: token, upload, publish, so that no
    endpoint is called twice and none out of order.  Fewer than the
    three calls are made only when [main] raises.  None is made after a
    failure: when [getToken] raises, neither the upload nor the publish
    endpoint is called, and when [upload] raises, the publish endpoint
    is not called. *)
Theorem calls_in_order st :
  ∃ evs,
    trace (main str w st).2 = trace st ++ evs ∧
    initial_segment (calls evs) [Some Token; Some Upload; Some Publish] ∧
    (calls evs ≠ [Some Token; Some Upload; Some Publish] →
     ∃ e, (main str w st).1 = Raise e) ∧
    (∀ e st1,
       getToken w st = (Raise e, st1) →
       (Some Upload ∉ calls evs) ∧ (Some Publish ∉ calls evs)) ∧
    (∀ id path token st1 e st2,
       environ w !! "EXTENSION_ID" = Some id →
       environ w !! "FILE_NAME" = Some path →
       getToken w st = (Return token, st1) →
       upload str w token id path st1 = (Raise e, st2) →
       Some Publish ∉ calls evs).
Proof.
  destruct (main_outcomes str w st) as (res & st' & evs & Hmain & Htr & _ & Hc).
  exists evs. rewrite Hmain. simpl.
  assert (∀ evs', trace st' = trace st ++ evs' → evs' = evs) as Hone.
  { intros evs' Htr'. rewrite Htr in Htr'. by apply app_inv_head in Htr'. }
  assert ((∃ k, main str w st = (Raise (KeyError k), st)) → calls evs = [])
    as Hearly.
  { intros [k Hk]. rewrite Hmain in Hk. injection Hk as -> ->.
    rewrite <- (Hone []); [done | by rewrite app_nil_r]. }
  split; [done |]. split; [| split; [| split]].
  - unfold initial_segment.
    destruct Hc as [[-> _] | [[-> _] | [[-> _] | ->]]].
    + by eexists.
    + by exists [Some Upload; Some Publish].
    + by exists [Some Publish].
    + by exists [].
  - intros Hne. destruct Hc as [[_ ?] | [[_ ?] | [[_ ?] | ?]]]; done.
  - intros e st1 Htoken.
    destruct (main_target_cases st) as [Hk | (id & path & target & H1 & H2 & H3)].
    { rewrite (Hearly Hk). set_solver. }
    destruct (proj1 (main_stops_at_failure st id path target H1 H2 H3)
                e st1 Htoken) as (evs' & Htr' & Hcalls).
    rewrite Hmain in Htr'. simpl in Htr'. apply Hone in Htr' as ->.
    destruct Hcalls as [-> | ->]; set_solver.
  - intros id path token st1 e st2 H1 H2 Htoken Hupload.
    destruct (main_target_cases st)
      as [Hk | (id' & path' & target & H1' & H2' & H3)].
    { rewrite (Hearly Hk). set_solver. }
    rewrite H1 in H1'. rewrite H2 in H2'.
    injection H1' as <-. injection H2' as <-.
    destruct (proj2 (main_stops_at_failure st id path target H1 H2 H3)
                token st1 e st2 Htoken Hupload) as (evs' & Htr' & Hcalls).
    rewrite Hmain in Htr'. simpl in Htr'. apply Hone in Htr' as ->.
    destruct Hcalls as [-> | ->]; set_solver.
Qed.

(** X2.  The process exits with status 0 only after all three calls
    were made, in order: a run that stops earlier exits with 1. *)
Theorem exit_zero_after_all_calls st :
  (script str w st).1 = 0 →
  ∃ evs,
    trace (script str w st).2 = trace st ++ evs ∧
    calls evs = [Some Token; Some Upload; Some Publish].
Proof.
  unfold script.
  destruct (main_outcomes str w st) as (res & st' & evs & -> & Htr & _ & Hc).
  destruct res as [[]|e]; simpl; [| done]. intros _.
  exists evs. split; [done |].
  destruct Hc as [[_ [? ?]] | [[_ [? ?]] | [[_ [? ?]] | ?]]]; done.
Qed.

(** X3.  [main] leaves no file open, however it ends: the descriptors
    open after the run were open before it. *)
Theorem main_leaves_no_file_open st :
  open_fds (main str w st).2 ⊆ open_fds st.
Proof.
  by destruct (main_outcomes str w st) as (res & st' & evs & -> & _ & ? & _).
Qed.

(** X4.  A failure of [publish] comes after the upload: [main] raises
    the exception of [publish], the process exits with 1, and the
    token and upload calls have been made, the upload is not undone. *)
Theorem publish_failure_after_upload st id path target token st1 st2 e st3 :
  environ w !! "EXTENSION_ID" = Some id →
  environ w !! "FILE_NAME" = Some path →
  environ w !! "PUBLISH_TARGET" = Some target →
  getToken w st = (Return token, st1) →
  upload str w token id path st1 = (Return tt, st2) →
  publish str w token id target st2 = (Raise e, st3) →
  main str w st = (Raise e, st3) ∧
  script str w st = (1, st3) ∧
  ∃ evs, trace st3 = trace st ++ evs ∧
         calls evs = [Some Token; Some Upload; Some Publish].
Proof.
  intros H1 H2 H3 Htoken Hupload Hpublish.
  assert (main str w st = (Raise e, st3)) as Hmain.
  { rewrite (main_lookups str w st id path target H1 H2 H3).
    rewrite (bind_Return _ _ _ _ _ Htoken).
    rewrite (bind_Return _ _ _ _ _ Hupload). exact Hpublish. }
  split; [done |]. split; [unfold script; by rewrite Hmain |].
  destruct (main_outcomes str w st) as (res & st' & evs & Hm & Htr & _ & Hc).
  rewrite Hmain in Hm. injection Hm as <- <-.
  exists evs. split; [done |].
  destruct (getToken_calls w st) as (evs1 & Hst1 & Hcalls1).
  rewrite Htoken in Hst1, Hcalls1. simpl in Hst1, Hcalls1. subst st1.
  destruct (upload_outcomes str w (emit st evs1) token id path)
    as (res2 & st2' & evs2 & Hup & Htr2 & _ & Hcalls2).
  rewrite Hupload in Hup. injection Hup as <- <-.
  destruct (publish_outcomes str w st2 token id target)
    as (res3 & evs3 & Hpub & Hc3).
  rewrite Hpublish in Hpub. injection Hpub as <- ->.
  simpl in Htr, Htr2. rewrite Htr2, <- !(assoc_L (++)) in Htr.
  apply app_inv_head in Htr. subst evs.
  rewrite !calls_app, Hc3.
  destruct Hcalls1 as [[_ (k & [=] & _)] | [-> _]].
  by destruct Hcalls2 as [[_ [=]] | ->].
Qed.

(** With the six variables set, [main] raises no lookup error. *)
Lemma main_no_lookup_error st id path target cid cs rt :
  environ w !! "EXTENSION_ID" = Some id →
  environ w !! "FILE_NAME" = Some path →
  environ w !! "PUBLISH_TARGET" = Some target →
  environ w !! "WEBSTORE_CLIENT_ID" = Some cid →
  environ w !! "WEBSTORE_CLIENT_SECRET" = Some cs →
  environ w !! "WEBSTORE_REFRESH_TOKEN" = Some rt →
  ∀ k, (main str w st).1 ≠ Raise (KeyError k).
Proof.
  intros H1 H2 H3 H4 H5 H6 k.
  rewrite (main_lookups str w st id path target H1 H2 H3).
  destruct (getToken_run w st cid cs rt H4 H5 H6)
    as (res1 & evs1 & Htoken & _ & Hres1).
  destruct res1 as [token|e1].
  2: { rewrite (bind_Raise _ _ _ _ _ Htoken). simpl. intros [= ->].
       by apply (Hres1 k). }
  rewrite (bind_Return _ _ _ _ _ Htoken).
  destruct (files w !! path) as [bytes|] eqn:Hfile.
  2: { by rewrite (bind_Raise _ _ _ (OSError path) _
                     (upload_missing str w _ token id path Hfile)). }
  destruct (upload_run str w
              (emit st (EvRequest (token_request cid cs rt) :: evs1))
              token id path bytes Hfile)
    as (res2 & evs2 & Hupload & _ & Hres2).
  destruct res2 as [[]|e2].
  2: { rewrite (bind_Raise _ _ _ _ _ Hupload). simpl. by apply Hres2. }
  rewrite (bind_Return _ _ _ _ _ Hupload).
  match goal with
  | |- (publish str w token id target ?st2).1 ≠ _ =>
      destruct (publish_run str w st2 token id target)
        as (res3 & evs3 & -> & _ & Hres3)
  end.
  simpl. by apply Hres3.
Qed.

(** X5.  The lookup error of a run names the first variable, in the
    order EXTENSION_ID, FILE_NAME, PUBLISH_TARGET, WEBSTORE_CLIENT_ID,
    WEBSTORE_CLIENT_SECRET, WEBSTORE_REFRESH_TOKEN, that the
    environment does not define; [main] then ends in the state it
    started in.  A run raises no other lookup error. *)
Theorem lookup_error_names_first_missing st k :
  (first_missing (environ w) lookup_order = Some k →
   main str w st = (Raise (KeyError k), st)) ∧
  ((main str w st).1 = Raise (KeyError k) →
   first_missing (environ w) lookup_order = Some k).
Proof.
  unfold lookup_order, target_variables, credential_variables.
  cbn [app first_missing].
  destruct (environ w !! "EXTENSION_ID") as [id|] eqn:H1.
  2: { assert (main str w st = (Raise (KeyError "EXTENSION_ID"), st)) as ->.
       { unfold main. apply bind_Raise. by apply environ_get_None. }
       split; [by intros [= <-] | by intros [= <-]]. }
  destruct (environ w !! "FILE_NAME") as [path|] eqn:H2.
  2: { assert (main str w st = (Raise (KeyError "FILE_NAME"), st)) as ->.
       { unfold main.
         rewrite (bind_Return _ _ st id st) by (by apply environ_get_Some).
         apply bind_Raise. by apply environ_get_None. }
       split; [by intros [= <-] | by intros [= <-]]. }
  destruct (environ w !! "PUBLISH_TARGET") as [target|] eqn:H3.
  2: { assert (main str w st = (Raise (KeyError "PUBLISH_TARGET"), st)) as ->.
       { unfold main.
         rewrite (bind_Return _ _ st id st) by (by apply environ_get_Some).
         rewrite (bind_Return _ _ st path st) by (by apply environ_get_Some).
         apply bind_Raise. by apply environ_get_None. }
       split; [by intros [= <-] | by intros [= <-]]. }
  destruct (environ w !! "WEBSTORE_CLIENT_ID") as [cid|] eqn:H4.
  2: { assert (main str w st = (Raise (KeyError "WEBSTORE_CLIENT_ID"), st))
         as ->.
       { rewrite (main_lookups str w st id path target H1 H2 H3).
         apply bind_Raise. unfold getToken. apply bind_Raise.
         by apply environ_get_None. }
       split; [by intros [= <-] | by intros [= <-]]. }
  destruct (environ w !! "WEBSTORE_CLIENT_SECRET") as [cs|] eqn:H5.
  2: { assert (main str w st
               = (Raise (KeyError "WEBSTORE_CLIENT_SECRET"), st)) as ->.
       { rewrite (main_lookups str w st id path target H1 H2 H3).
         apply bind_Raise. unfold getToken.
         rewrite (bind_Return _ _ st cid st) by (by apply environ_get_Some).
         apply bind_Raise. by apply environ_get_None. }
       split; [by intros [= <-] | by intros [= <-]]. }
  destruct (environ w !! "WEBSTORE_REFRESH_TOKEN") as [rt|] eqn:H6.
  2: { assert (main str w st
               = (Raise (KeyError "WEBSTORE_REFRESH_TOKEN"), st)) as ->.
       { rewrite (main_lookups str w st id path target H1 H2 H3).
         apply bind_Raise. unfold getToken.
         rewrite (bind_Return _ _ st cid st) by (by apply environ_get_Some).
         rewrite (bind_Return _ _ st cs st) by (by apply environ_get_Some).
         apply bind_Raise. by apply environ_get_None. }
       split; [by intros [= <-] | by intros [= <-]]. }
  split; [done |]. intros Hkey. exfalso.
  by apply (main_no_lookup_error st id path target cid cs rt H1 H2 H3 H4 H5 H6 k).
Qed.

Lemma passing_status code :
  ¬ (400 ≤ code < 600) → (400 <=? code) && (code <? 600) = false.
Proof. lia. Qed.

(** X6.  When the artifact named by FILE_NAME does not exist, the token
    has already been fetched: [main] raises the error of [open], the
    process exits with 1, and the token call is the only call made; no
    file was opened. *)
Theorem missing_artifact st id path target r :
  environ w !! "EXTENSION_ID" = Some id →
  environ w !! "FILE_NAME" = Some path →
  environ w !! "PUBLISH_TARGET" = Some target →
  defined_in (environ w) credential_variables →
  answers w Token r →
  succeeds Token r = true →
  files w !! path = None →
  (main str w st).1 = Raise (OSError path) ∧
  (script str w st).1 = 1 ∧
  ∃ evs, trace (main str w st).2 = trace st ++ evs ∧
         calls evs = [Some Token] ∧
         Forall (λ e, file_event e = false) evs.
Proof.
  intros H1 H2 H3 Hcred Hnet Hok Hfile.
  apply succeeds_token in Hok as (fields & token & Hjson & Hl & Ht).
  destruct (getToken_answered w st r fields Hcred Hnet Hjson)
    as (req & Hep & Htoken).
  rewrite Hl in Htoken. simpl in Htoken. rewrite Ht in Htoken.
  assert (main str w st
          = (Raise (OSError path), emit st [EvRequest req; EvJson r]))
    as Hmain.
  { rewrite (main_lookups str w st id path target H1 H2 H3).
    rewrite (bind_Return _ _ _ _ _ Htoken).
    apply bind_Raise. by apply upload_missing. }
  unfold script. rewrite Hmain. simpl.
  split; [done |]. split; [done |].
  eexists. split; [done |].
  split; [unfold calls; simpl; by rewrite Hep |].
  by repeat constructor.
Qed.

(** X7.  When an endpoint gives no response, the step raises the
    transport error of the call and decodes nothing; [upload] has
    closed the file by then. *)
Theorem no_response st token id path target bytes e :
  (defined_in (environ w) credential_variables →
   unreachable w Token e →
   (getToken w st).1 = Raise (RequestException e) ∧
   decoded (trace (getToken w st).2) = decoded (trace st)) ∧
  (files w !! path = Some bytes →
   unreachable w Upload e →
   (upload str w token id path st).1 = Raise (RequestException e) ∧
   decoded (trace (upload str w token id path st).2) = decoded (trace st) ∧
   next_fd st ∉ open_fds (upload str w token id path st).2) ∧
  (unreachable w Publish e →
   (publish str w token id target st).1 = Raise (RequestException e) ∧
   decoded (trace (publish str w token id target st).2) = decoded (trace st)).
Proof.
  split; [| split].
  - intros Henv Hnet. split_defined. script_unfold.
    repeat match goal with
           | H : environ w !! _ = Some _ |- _ => rewrite H; clear H
           end.
    step. rewrite Hnet by reflexivity. step. simpl.
    split; [done |]. rewrite decoded_app. simpl. by rewrite app_nil_r.
  - intros Hfile Hnet. script_unfold. rewrite Hfile. step.
    rewrite Hnet by apply upload_url_endpoint. step. simpl.
    split; [done |]. split; [| set_solver].
    rewrite !decoded_app. simpl. by rewrite !app_nil_r.
  - intros Hnet. script_unfold.
    rewrite Hnet by apply publish_url_endpoint. step. simpl.
    split; [done |]. rewrite decoded_app. simpl. by rewrite app_nil_r.
Qed.

(** X8.  A body that is not a JSON object is not taken for a refusal:
    when the status passes, a body that is not JSON raises the decoding
    error and a JSON value that is not an object raises the attribute
    error of [get], in each of the three steps, and not the error of
    the step. *)
Theorem body_not_object st token id path target bytes r :
  (∀ fields, json_body r ≠ Some (JObj fields)) →
  let err := match json_body r with
             | None => JSONDecodeError
             | Some _ => AttributeError "get"
             end in
  (defined_in (environ w) credential_variables → answers w Token r →
   (getToken w st).1 = Raise err) ∧
  (¬ (400 ≤ status_code r < 600) →
   files w !! path = Some bytes → answers w Upload r →
   (upload str w token id path st).1 = Raise err) ∧
  (¬ (400 ≤ status_code r < 600) →
   answers w Publish r →
   (publish str w token id target st).1 = Raise err).
Proof.
  intros Hjson err. subst err. split; [| split].
  - intros Henv Hnet.
    rewrite (getToken_body_not_object w st r Henv Hnet Hjson).
    by destruct (json_body r).
  - intros Hcode Hfile Hnet.
    destruct (upload_answered str w st token id path bytes r Hfile Hnet)
      as (req & _ & ->).
    rewrite (passing_status _ Hcode). simpl.
    destruct (json_body r) as [[| | | | |fields]|]; try done.
    by destruct (Hjson fields).
  - intros Hcode Hnet.
    destruct (publish_answered str w st token id target r Hnet)
      as (req & _ & ->).
    rewrite (passing_status _ Hcode). simpl.
    destruct (json_body r) as [[| | | | |fields]|]; try done.
    by destruct (Hjson fields).
Qed.

(** X9.  [upload] treats every status outside 400..599 as it treats a
    2xx, a redirect included: with a JSON object as body it returns
    exactly when [uploadState] is the string SUCCESS and raises the
    upload error otherwise. *)
Theorem upload_passing_status st token id path bytes r fields :
  files w !! path = Some bytes →
  answers w Upload r →
  ¬ (400 ≤ status_code r < 600) →
  json_body r = Some (JObj fields) →
  (fields !! "uploadState" = Some (JStr "SUCCESS") →
   (upload str w token id path st).1 = Return tt) ∧
  (fields !! "uploadState" ≠ Some (JStr "SUCCESS") →
   (upload str w token id path st).1 = Raise (UploadError (text r))).
Proof.
  intros Hfile Hnet Hcode Hjson.
  destruct (upload_answered str w st token id path bytes r Hfile Hnet)
    as (req & _ & ->).
  rewrite (passing_status _ Hcode), Hjson. simpl. split.
  - by intros ->.
  - intros Hne. destruct (eq_str _ _) eqn:Heq; [| done].
    apply eq_str_spec in Heq.
    destruct (fields !! "uploadState"); simpl in Heq; congruence.
Qed.

(** X10.  [publish] on a [status] that is a list of any JSON values:
    it returns when every item is the string OK (none at all
    included); it raises [TypeError] when an item is a list or an
    object, which a set cannot hold; and it raises the publish error
    when the items can be held and one of them is not the string OK, a
    number, a boolean or [null] included. *)
Theorem publish_status_items st token id target r fields items :
  answers w Publish r →
  ¬ (400 ≤ status_code r < 600) →
  json_body r = Some (JObj fields) →
  fields !! "status" = Some (JArr items) →
  (Forall (λ v, v = JStr "OK") items →
   (publish str w token id target st).1 = Return tt) ∧
  (Exists (λ v, hash_key v = None) items →
   (publish str w token id target st).1 = Raise TypeError) ∧
  (Forall (λ v, hash_key v ≠ None) items →
   Exists (λ v, v ≠ JStr "OK") items →
   (publish str w token id target st).1 = Raise (PublishError (text r))).
Proof.
  intros Hnet Hcode Hjson Hstatus.
  destruct (publish_answered str w st token id target r Hnet) as (req & _ & ->).
  rewrite (passing_status _ Hcode), Hjson, Hstatus. simpl.
  destruct (set_of_items items) as [statuses|] eqn:Hset.
  - pose proof (set_of_items_elem items statuses Hset) as Helem.
    split; [| split].
    + intros Hall.
      rewrite bool_decide_eq_true_2; [done |].
      apply set_eq. intros k. split; [| set_solver].
      intros [Hk Hne]%elem_of_difference.
      apply Helem in Hk as (v & Hv & Hkv).
      rewrite Forall_forall in Hall. rewrite (Hall v Hv) in Hkv.
      simpl in Hkv. injection Hkv as <-. set_solver.
    + intros Hex. apply set_of_items_None in Hex. congruence.
    + intros _ Hex. apply Exists_exists in Hex as (v & Hv & Hne).
      rewrite bool_decide_eq_false_2; [done |].
      intros Hempty.
      destruct (hash_key v) as [k|] eqn:Hk.
      * assert (k ∈ statuses ∖ {[ KStr "OK" ]}) as Hin;
          [| rewrite Hempty in Hin; set_solver].
        apply elem_of_difference. split; [apply Helem; by exists v |].
        intros ->%elem_of_singleton. by apply hash_key_OK in Hk.
      * assert (set_of_items items = None) as Hnone; [| congruence].
        apply set_of_items_None, Exists_exists. by exists v.
  - apply set_of_items_None in Hset. split; [| split].
    + intros Hall. exfalso.
      apply Exists_exists in Hset as (v & Hv & Hk).
      rewrite Forall_forall in Hall. rewrite (Hall v Hv) in Hk. done.
    + done.
    + intros Hall. exfalso.
      apply Exists_exists in Hset as (v & Hv & Hk).
      rewrite Forall_forall in Hall. by apply (Hall v Hv).
Qed.

(** X11.  [publish] on a [status] that is a string, not a list, takes
    its characters for the codes: it returns on the empty string only,
    and raises the publish error on every other string, the string OK
    included. *)
Theorem publish_status_string st token id target r fields s :
  answers w Publish r →
  ¬ (400 ≤ status_code r < 600) →
  json_body r = Some (JObj fields) →
  fields !! "status" = Some (JStr s) →
  (s = EmptyString → (publish str w token id target st).1 = Return tt) ∧
  (s ≠ EmptyString →
   (publish str w token id target st).1 = Raise (PublishError (text r))).
Proof.
  intros Hnet Hcode Hjson Hstatus.
  destruct (publish_answered str w st token id target r Hnet) as (req & _ & ->).
  rewrite (passing_status _ Hcode), Hjson, Hstatus. simpl. split.
  - intros ->. simpl. rewrite bool_decide_eq_true_2; [done | set_solver].
  - intros Hne. destruct s as [|c s]; [done |].
    rewrite bool_decide_eq_false_2; [done |]. intros Hempty.
    assert (KStr (String c EmptyString)
              ∈ (list_to_set (KStr <$> chars (String c s)) : gset key)
                ∖ {[ KStr "OK" ]}) as Hin;
      [| rewrite Hempty in Hin; set_solver].
    apply elem_of_difference. split.
    + apply elem_of_list_to_set, list_elem_of_fmap.
      exists (String c EmptyString). split; [done |]. simpl.
      apply list_elem_of_here.
    + by intros [=]%elem_of_singleton.
Qed.

(** X12.  A [status] that is present but [null], a boolean or a number
    makes [publish] raise [TypeError]: only an absent [status] is read
    as the empty list. *)
Theorem publish_status_not_iterable st token id target r fields v :
  answers w Publish r →
  ¬ (400 ≤ status_code r < 600) →
  json_body r = Some (JObj fields) →
  fields !! "status" = Some v →
  v = JNull ∨ (∃ b, v = JBool b) ∨ (∃ n, v = JInt n) →
  (publish str w token id target st).1 = Raise TypeError.
Proof.
  intros Hnet Hcode Hjson Hstatus Hv.
  destruct (publish_answered str w st token id target r Hnet) as (req & _ & ->).
  rewrite (passing_status _ Hcode), Hjson, Hstatus. simpl.
  by destruct Hv as [-> | [[b ->] | [n ->]]].
Qed.

(** X13.  The token call carries the credentials as they stand in the
    environment, in the form of the request and nowhere else: the form
    has the five fields of a refresh-token grant, and the request has
    no header and no query parameter. *)
Theorem token_call_form st cid cs rt :
  environ w !! "WEBSTORE_CLIENT_ID" = Some cid →
  environ w !! "WEBSTORE_CLIENT_SECRET" = Some cs →
  environ w !! "WEBSTORE_REFRESH_TOKEN" = Some rt →
  ∃ req form evs,
    trace (getToken w st).2 = trace st ++ EvRequest req :: evs ∧
    network_calls evs = [] ∧
    method req = POST ∧
    url req = "https://accounts.google.com/o/oauth2/token"%string ∧
    params req = ∅ ∧ headers req = ∅ ∧
    data req = FormData form ∧
    form !! "client_id" = Some cid ∧
    form !! "client_secret" = Some cs ∧
    form !! "refresh_token" = Some rt ∧
    form !! "grant_type" = Some "refresh_token"%string ∧
    form !! "redirect_uri" = Some "urn:ietf:wg:oauth:2.0:oob"%string ∧
    dom form = {[ "client_id"; "client_secret"; "refresh_token";
                  "grant_type"; "redirect_uri" ]}.
Proof.
  intros H1 H2 H3.
  destruct (getToken_run w st cid cs rt H1 H2 H3) as (res & evs & -> & Hevs & _).
  eexists (token_request cid cs rt), _, evs. simpl.
  split; [done |].
  split; [by destruct Hevs as [-> | [r ->]] |].
  do 4 (split; [done |]). split; [done |].
  do 5 (split; [by simplify_map_eq |]).
  rewrite !dom_insert_L, dom_empty_L. set_solver.
Qed.

(** X14.  The token that [getToken] returned is the one every later
    call presents: each call [main] makes after it carries the header
    Authorization with Bearer and the text of that token, and the
    API-version header; the publish call carries PUBLISH_TARGET in
    the header publishTarget and has no body, the upload call has no
    such header. *)
Theorem bearer_token_forwarded st id path target token st1 :
  environ w !! "EXTENSION_ID" = Some id →
  environ w !! "FILE_NAME" = Some path →
  environ w !! "PUBLISH_TARGET" = Some target →
  getToken w st = (Return token, st1) →
  ∃ evs,
    trace (main str w st).2 = trace st1 ++ evs ∧
    ∀ req, req ∈ network_calls evs →
      headers req !! "Authorization" = Some ("Bearer " +:+ str token) ∧
      headers req !! "x-goog-api-version" = Some "2"%string ∧
      (endpoint_of req = Some Upload → headers req !! "publishTarget" = None) ∧
      (endpoint_of req = Some Publish →
       headers req !! "publishTarget" = Some target ∧ data req = NoData).
Proof.
  intros H1 H2 H3 Htoken.
  rewrite (main_lookups str w st id path target H1 H2 H3).
  rewrite (bind_Return _ _ _ _ _ Htoken).
  assert (∀ f req,
            req = upload_request str token id f →
            headers req !! "Authorization" = Some ("Bearer " +:+ str token) ∧
            headers req !! "x-goog-api-version" = Some "2"%string ∧
            (endpoint_of req = Some Upload →
             headers req !! "publishTarget" = None) ∧
            (endpoint_of req = Some Publish →
             headers req !! "publishTarget" = Some target ∧
             data req = NoData)) as Hup.
  { intros f req ->. unfold upload_request, defaultHeaders. simpl.
    split; [by simplify_map_eq |]. split; [by simplify_map_eq |].
    split; [intros _; by simplify_map_eq |].
    rewrite upload_url_endpoint. done. }
  assert (∀ req,
            req = publish_request str token id target →
            headers req !! "Authorization" = Some ("Bearer " +:+ str token) ∧
            headers req !! "x-goog-api-version" = Some "2"%string ∧
            (endpoint_of req = Some Upload →
             headers req !! "publishTarget" = None) ∧
            (endpoint_of req = Some Publish →
             headers req !! "publishTarget" = Some target ∧
             data req = NoData)) as Hpub.
  { intros req ->. unfold publish_request, defaultHeaders.
    rewrite publish_url_endpoint. simpl.
    split; [by simplify_map_eq |]. split; [by simplify_map_eq |].
    split; [done |]. intros _. by simplify_map_eq. }
  destruct (files w !! path) as [bytes|] eqn:Hfile.
  2: { rewrite (bind_Raise _ _ _ (OSError path) _
                  (upload_missing str w _ token id path Hfile)).
       exists []. simpl. split; [by rewrite app_nil_r |].
       intros req Hreq. by apply elem_of_nil in Hreq. }
  destruct (upload_run str w st1 token id path bytes Hfile)
    as (res2 & evs2 & Hupload & Hevs2 & _).
  assert (network_calls evs2 = []) as Hn2
    by (by destruct Hevs2 as [-> | [r ->]]).
  destruct res2 as [[]|e].
  - rewrite (bind_Return _ _ _ _ _ Hupload).
    match goal with
    | |- context [publish str w token id target ?st2] =>
        destruct (publish_run str w st2 token id target)
          as (res3 & evs3 & -> & Hevs3 & _)
    end.
    assert (network_calls evs3 = []) as Hn3
      by (by destruct Hevs3 as [-> | [r ->]]).
    eexists. simpl. rewrite <- !(assoc_L (++)). split; [done |].
    intros req. simpl. rewrite !network_calls_app, Hn2. simpl. rewrite Hn3.
    intros [-> | [-> | []%elem_of_nil]%elem_of_cons]%elem_of_cons.
    + by eapply Hup.
    + by apply Hpub.
  - rewrite (bind_Raise _ _ _ _ _ Hupload).
    eexists. simpl. split; [done |].
    intros req. simpl. rewrite !network_calls_app, Hn2. simpl.
    intros [-> | []%elem_of_nil]%elem_of_cons. by eapply Hup.
Qed.

(** X15.  [upload] sends the artifact as it is on the disk: its one
    call is a PUT to the upload URL of the extension whose body is the
    very file it opened, with the name, the mode [rb] and the contents
    of the file at that path, made after the file was opened and before
    it is closed, and carrying the two default headers only. *)
Theorem upload_sends_artifact st token id path bytes :
  files w !! path = Some bytes →
  ∃ req f after,
    trace (upload str w token id path st).2
    = trace st ++ [EvOpen path "rb" (fileno f); EvRequest req] ++ after ++
      [EvClose (fileno f)] ∧
    network_calls after = [] ∧
    method req = PUT ∧
    url req = ("https://www.googleapis.com/upload/chromewebstore/v1.1/items/"
               +:+ id)%string ∧
    params req = ∅ ∧
    data req = FileData f ∧
    name f = path ∧ mode f = "rb"%string ∧ contents f = bytes ∧
    dom (headers req) = {[ "Authorization"; "x-goog-api-version" ]}.
Proof.
  intros Hfile.
  destruct (upload_run str w st token id path bytes Hfile)
    as (res & evs & -> & Hevs & _).
  eexists _, (MkFile (next_fd st) path "rb" bytes), evs.
  split; [done |].
  split; [by destruct Hevs as [-> | [r ->]] |].
  do 7 (split; [done |]).
  unfold upload_request, defaultHeaders. cbn [headers].
  rewrite !dom_insert_L, dom_empty_L. set_solver.
Qed.

End Coverage.

(** ** The further properties on the sample worlds *)

Lemma cut_unreachable ep : unreachable (Edge.offline ep) ep Timeout.
Proof.
  intros tr req Hep. simpl. unfold Edge.cut. rewrite Hep. by destruct ep.
Qed.

Lemma calls_in_order_witness :
  ∃ evs,
    trace (main Sample.str Sample.upload_refused initial).2
    = trace initial ++ evs ∧
    initial_segment (calls evs) [Some Token; Some Upload; Some Publish] ∧
    (∃ e, (main Sample.str Sample.upload_refused initial).1 = Raise e) ∧
    (Some Publish ∉ calls evs).
Proof.
  destruct (calls_in_order Sample.str Sample.upload_refused initial)
    as (evs & Htrace & Hsegment & Hraise & _ & Hupload).
  assert (Some Publish ∉ calls evs) as Hnone.
  { apply (Hupload "abc"%string "ext.zip"%string (JStr "X")
             (getToken Sample.upload_refused initial).2
             (UploadError (text Sample.upload_failure))
             (upload Sample.str Sample.upload_refused (JStr "X") "abc"
                "ext.zip" (getToken Sample.upload_refused initial).2).2);
      vm_compute; reflexivity. }
  exists evs. split; [exact Htrace |]. split; [exact Hsegment |].
  split; [| exact Hnone].
  apply Hraise. intros Hall. apply Hnone. rewrite Hall.
  apply list_elem_of_further, list_elem_of_further, list_elem_of_here.
Defined.

Lemma exit_zero_after_all_calls_witness :
  ∃ evs,
    trace (script Sample.str Sample.good initial).2 = trace initial ++ evs ∧
    calls evs = [Some Token; Some Upload; Some Publish].
Proof.
  apply (exit_zero_after_all_calls Sample.str Sample.good initial).
  vm_compute. reflexivity.
Defined.

Lemma publish_failure_after_upload_witness :
  ∃ st3,
    main Sample.str Sample.publish_refused initial
    = (Raise (PublishError (text Sample.publish_not_found)), st3) ∧
    script Sample.str Sample.publish_refused initial = (1, st3) ∧
    ∃ evs, trace st3 = trace initial ++ evs ∧
           calls evs = [Some Token; Some Upload; Some Publish].
Proof.
  set (w := Sample.publish_refused).
  set (st1 := (getToken w initial).2).
  set (st2 := (upload Sample.str w (JStr "X") "abc" "ext.zip" st1).2).
  exists (publish Sample.str w (JStr "X") "abc" "default" st2).2.
  apply (publish_failure_after_upload Sample.str w initial
           "abc" "ext.zip" "default" (JStr "X") st1 st2);
    vm_compute; reflexivity.
Defined.

Lemma lookup_error_names_first_missing_witness :
  main Sample.str (Sample.without "WEBSTORE_CLIENT_SECRET") initial
  = (Raise (KeyError "WEBSTORE_CLIENT_SECRET"), initial) ∧
  main Sample.str Edge.bare initial
  = (Raise (KeyError "EXTENSION_ID"), initial).
Proof.
  split.
  - apply (proj1 (lookup_error_names_first_missing Sample.str
                    (Sample.without "WEBSTORE_CLIENT_SECRET") initial
                    "WEBSTORE_CLIENT_SECRET")).
    vm_compute. reflexivity.
  - apply (proj1 (lookup_error_names_first_missing Sample.str Edge.bare
                    initial "EXTENSION_ID")).
    vm_compute. reflexivity.
Defined.

Lemma missing_artifact_witness :
  (main Sample.str Edge.no_artifact initial).1 = Raise (OSError "ext.zip") ∧
  (script Sample.str Edge.no_artifact initial).1 = 1 ∧
  ∃ evs, trace (main Sample.str Edge.no_artifact initial).2
         = trace initial ++ evs ∧
         calls evs = [Some Token] ∧
         Forall (λ e, file_event e = false) evs.
Proof.
  apply (missing_artifact Sample.str Edge.no_artifact initial
           "abc" "ext.zip" "default" Sample.token_ok).
  - reflexivity.
  - reflexivity.
  - reflexivity.
  - apply sample_credentials_defined.
  - apply (mock_answers _ _ _ _ _ Token).
  - vm_compute. reflexivity.
  - reflexivity.
Defined.

Lemma no_response_witness :
  (getToken (Edge.offline Token) initial).1
  = Raise (RequestException Timeout) ∧
  ((upload Sample.str (Edge.offline Upload) (JStr "X") "abc" "ext.zip"
      initial).1 = Raise (RequestException Timeout) ∧
   3%nat ∉ open_fds (upload Sample.str (Edge.offline Upload) (JStr "X") "abc"
                       "ext.zip" initial).2) ∧
  (publish Sample.str (Edge.offline Publish) (JStr "X") "abc" "default"
     initial).1 = Raise (RequestException Timeout).
Proof.
  split; [| split].
  - apply (proj1 (no_response Sample.str (Edge.offline Token) initial
                    (JStr "X") "abc" "ext.zip" "default" "PK" Timeout)).
    + apply sample_credentials_defined.
    + apply cut_unreachable.
  - destruct (proj1 (proj2 (no_response Sample.str (Edge.offline Upload)
                              initial (JStr "X") "abc" "ext.zip" "default"
                              "PK" Timeout))
                eq_refl (cut_unreachable Upload)) as (Hres & _ & Hfd).
    split; [exact Hres | exact Hfd].
  - apply (proj2 (proj2 (no_response Sample.str (Edge.offline Publish)
                           initial (JStr "X") "abc" "ext.zip" "default"
                           "PK" Timeout))).
    apply cut_unreachable.
Defined.

Lemma body_not_object_witness :
  (getToken (Edge.authenticating Edge.html) initial).1
  = Raise JSONDecodeError ∧
  (upload Sample.str (Edge.uploading Edge.array) (JStr "X") "abc" "ext.zip"
     initial).1 = Raise (AttributeError "get") ∧
  (publish Sample.str (Edge.publishing Edge.html) (JStr "X") "abc" "default"
     initial).1 = Raise JSONDecodeError.
Proof.
  split; [| split].
  - apply (proj1 (body_not_object Sample.str (Edge.authenticating Edge.html)
                    initial (JStr "X") "abc" "ext.zip" "default" "PK"
                    Edge.html
                    ltac:(intros fields; simpl; discriminate))).
    + apply sample_credentials_defined.
    + apply (mock_answers _ _ _ _ _ Token).
  - apply (proj1 (proj2 (body_not_object Sample.str
                           (Edge.uploading Edge.array) initial (JStr "X")
                           "abc" "ext.zip" "default" "PK" Edge.array
                           ltac:(intros fields; simpl; discriminate)))).
    + simpl. lia.
    + reflexivity.
    + apply (mock_answers _ _ _ _ _ Upload).
  - apply (proj2 (proj2 (body_not_object Sample.str
                           (Edge.publishing Edge.html) initial (JStr "X")
                           "abc" "ext.zip" "default" "PK" Edge.html
                           ltac:(intros fields; simpl; discriminate)))).
    + simpl. lia.
    + apply (mock_answers _ _ _ _ _ Publish).
Defined.

Lemma upload_passing_status_witness :
  (upload Sample.str Sample.upload_not_modified (JStr "X") "abc" "ext.zip"
     initial).1 = Return tt ∧
  (upload Sample.str (Edge.uploading Edge.found_failure) (JStr "X") "abc"
     "ext.zip" initial).1
  = Raise (UploadError (text Edge.found_failure)).
Proof.
  split.
  - apply (proj1 (upload_passing_status Sample.str Sample.upload_not_modified
                    initial (JStr "X") "abc" "ext.zip" "PK"
                    Sample.not_modified {[ "uploadState" := JStr "SUCCESS" ]}
                    eq_refl (mock_answers _ _ _ _ _ Upload)
                    ltac:(simpl; lia) eq_refl)).
    reflexivity.
  - apply (proj2 (upload_passing_status Sample.str
                    (Edge.uploading Edge.found_failure)
                    initial (JStr "X") "abc" "ext.zip" "PK"
                    Edge.found_failure {[ "uploadState" := JStr "FAILURE" ]}
                    eq_refl (mock_answers _ _ _ _ _ Upload)
                    ltac:(simpl; lia) eq_refl)).
    vm_compute. discriminate.
Defined.

Lemma publish_status_items_witness :
  (publish Sample.str Sample.good (JStr "X") "abc" "default" initial).1
  = Return tt ∧
  (publish Sample.str (Edge.publishing Edge.status_nested) (JStr "X") "abc"
     "default" initial).1 = Raise TypeError ∧
  (publish Sample.str (Edge.publishing Edge.status_mixed) (JStr "X") "abc"
     "default" initial).1
  = Raise (PublishError (text Edge.status_mixed)).
Proof.
  split; [| split].
  - apply (proj1 (publish_status_items Sample.str Sample.good initial
                    (JStr "X") "abc" "default" Sample.publish_ok
                    {[ "status" := JArr [JStr "OK"] ]} [JStr "OK"]
                    (mock_answers _ _ _ _ _ Publish)
                    ltac:(simpl; lia) eq_refl eq_refl)).
    repeat constructor.
  - apply (proj1 (proj2 (publish_status_items Sample.str
                           (Edge.publishing Edge.status_nested) initial
                           (JStr "X") "abc" "default" Edge.status_nested
                           {[ "status" := JArr [JArr []] ]} [JArr []]
                           (mock_answers _ _ _ _ _ Publish)
                           ltac:(simpl; lia) eq_refl eq_refl))).
    apply Exists_cons_hd. reflexivity.
  - apply (proj2 (proj2 (publish_status_items Sample.str
                           (Edge.publishing Edge.status_mixed) initial
                           (JStr "X") "abc" "default" Edge.status_mixed
                           {[ "status" := JArr [JInt 1] ]} [JInt 1]
                           (mock_answers _ _ _ _ _ Publish)
                           ltac:(simpl; lia) eq_refl eq_refl))).
    + repeat constructor. simpl. discriminate.
    + apply Exists_cons_hd. discriminate.
Defined.

Lemma publish_status_string_witness :
  (publish Sample.str (Edge.publishing Edge.status_string) (JStr "X") "abc"
     "default" initial).1
  = Raise (PublishError (text Edge.status_string)).
Proof.
  apply (proj2 (publish_status_string Sample.str
                  (Edge.publishing Edge.status_string) initial
                  (JStr "X") "abc" "default" Edge.status_string
                  {[ "status" := JStr "OK" ]} "OK"
                  (mock_answers _ _ _ _ _ Publish)
                  ltac:(simpl; lia) eq_refl eq_refl)).
  discriminate.
Defined.

Lemma publish_status_not_iterable_witness :
  (publish Sample.str (Edge.publishing Edge.status_null) (JStr "X") "abc"
     "default" initial).1 = Raise TypeError.
Proof.
  apply (publish_status_not_iterable Sample.str
           (Edge.publishing Edge.status_null) initial
           (JStr "X") "abc" "default" Edge.status_null
           {[ "status" := JNull ]} JNull
           (mock_answers _ _ _ _ _ Publish)
           ltac:(simpl; lia) eq_refl eq_refl).
  left. reflexivity.
Defined.

Lemma token_call_form_witness :
  ∃ req form evs,
    trace (getToken Sample.good initial).2
    = trace initial ++ EvRequest req :: evs ∧
    network_calls evs = [] ∧
    method req = POST ∧
    url req = "https://accounts.google.com/o/oauth2/token"%string ∧
    params req = ∅ ∧ headers req = ∅ ∧
    data req = FormData form ∧
    form !! "client_id" = Some "id"%string ∧
    form !! "client_secret" = Some "secret"%string ∧
    form !! "refresh_token" = Some "refresh"%string ∧
    form !! "grant_type" = Some "refresh_token"%string ∧
    form !! "redirect_uri" = Some "urn:ietf:wg:oauth:2.0:oob"%string ∧
    dom form = {[ "client_id"; "client_secret"; "refresh_token";
                  "grant_type"; "redirect_uri" ]}.
Proof.
  apply (token_call_form Sample.good initial "id" "secret" "refresh");
    reflexivity.
Defined.

Lemma bearer_token_forwarded_witness :
  ∃ evs,
    trace (main Sample.str Sample.good initial).2
    = trace (getToken Sample.good initial).2 ++ evs ∧
    ∀ req, req ∈ network_calls evs →
      headers req !! "Authorization" = Some "Bearer X"%string ∧
      headers req !! "x-goog-api-version" = Some "2"%string ∧
      (endpoint_of req = Some Upload → headers req !! "publishTarget" = None) ∧
      (endpoint_of req = Some Publish →
       headers req !! "publishTarget" = Some "default"%string ∧
       data req = NoData).
Proof.
  apply (bearer_token_forwarded Sample.str Sample.good initial
           "abc" "ext.zip" "default" (JStr "X")
           (getToken Sample.good initial).2);
    vm_compute; reflexivity.
Defined.

Lemma upload_sends_artifact_witness :
  ∃ req f after,
    trace (upload Sample.str Sample.good (JStr "X") "abc" "ext.zip"
             initial).2
    = trace initial ++ [EvOpen "ext.zip" "rb" (fileno f); EvRequest req] ++
      after ++ [EvClose (fileno f)] ∧
    network_calls after = [] ∧
    method req = PUT ∧
    url req = "https://www.googleapis.com/upload/chromewebstore/v1.1/items/abc"%string ∧
    params req = ∅ ∧
    data req = FileData f ∧
    name f = "ext.zip"%string ∧ mode f = "rb"%string ∧
    contents f = "PK"%string ∧
    dom (headers req) = {[ "Authorization"; "x-goog-api-version" ]}.
Proof.
  apply (upload_sends_artifact Sample.str Sample.good initial (JStr "X")
           "abc" "ext.zip" "PK").
  reflexivity.
Defined.
